(** * Data-vault validation script: a shallow embedding of [script.py]

    The script walks a static list of table configurations, asks the
    warehouse a handful of SQL questions per entry, and reshapes the answers
    into one summary row per table.  The embedding keeps the Python control
    flow: [try]/[except] is an error monad, the two containers that [main]
    mutates ([results] and [lost_records]) are an explicit state, and the
    warehouse session is a record of oracles indexed by the SQL text the
    script builds.  The diagnostic [print] calls are not modelled, and
    [safe_json_conversion], which neither [main] nor
    [extract_missing_records] calls, is left out. *)

From Stdlib Require Import ZArith Lia Ascii.
From stdpp Require Import base option list strings pretty.

Set Warnings "-register-all".

Open Scope string_scope.
Open Scope Z_scope.
Open Scope list_scope.

(* ================================================================= *)
(** ** Exceptions and the error monad *)

(** The exception classes the script can meet.  [JSONDecodeError] is the only
    one it names in an [except] clause; every other clause is
    [except Exception]. *)
Inductive exn_class : Set :=
  | SnowparkSQLException
  | JSONDecodeError
  | TypeError
  | KeyError
  | IndexError.

(** An exception: its class and the text [str(e)] gives. *)
Record exn : Set := Exn { exn_kind : exn_class; exn_str : string }.

Definition exn_class_eqb (a b : exn_class) : bool :=
  match a, b with
  | SnowparkSQLException, SnowparkSQLException
  | JSONDecodeError, JSONDecodeError
  | TypeError, TypeError
  | KeyError, KeyError
  | IndexError, IndexError => true
  | _, _ => false
  end.

(** The outcome of a Python expression: a value, or a raised exception. *)
Inductive result (A : Type) : Type :=
  | Return (a : A)
  | Raise (e : exn).
Arguments Return {A} a.
Arguments Raise {A} e.

Definition rbind {A B} (r : result A) (k : A -> result B) : result B :=
  match r with
  | Return a => k a
  | Raise e => Raise e
  end.

(** [try: body except Exception as e: handler e]. *)
Definition try_except {A} (body : result A) (handler : exn -> result A) : result A :=
  match body with
  | Return a => Return a
  | Raise e => handler e
  end.

(** [try: body except cls as e: handler e]: other classes pass through. *)
Definition try_except_class {A} (cls : exn_class) (body : result A)
    (handler : exn -> result A) : result A :=
  match body with
  | Return a => Return a
  | Raise e => if exn_class_eqb (exn_kind e) cls then handler e else Raise e
  end.

#[export] Instance result_ret : MRet result := @Return.
#[export] Instance result_bind : MBind result := fun A B k r => rbind r k.

(** A [for] loop that collects one value per element and stops at the first
    exception. *)
Fixpoint for_each {A B} (f : A -> result B) (l : list A) : result (list B) :=
  match l with
  | [] => Return []
  | x :: l' =>
      y ← f x;
      ys ← for_each f l';
      Return (y :: ys)
  end.

(* ================================================================= *)
(** ** Python values that travel as JSON *)

(** What [json.loads] builds and [json.dumps] prints.  A dict keeps its keys
    in insertion order, so it is an association list.  A float is carried by
    its text: the script never computes with one. *)
Inductive json : Type :=
  | JNull
  | JBool (b : bool)
  | JInt (n : Z)
  | JFloat (repr : string)
  | JStr (s : string)
  | JList (l : list json)
  | JDict (d : list (string * json)).

(** [d[k]] as a lookup that may miss. *)
Fixpoint dict_get {V} (k : string) (d : list (string * V)) : option V :=
  match d with
  | [] => None
  | (k', v) :: d' => if String.eqb k k' then Some v else dict_get k d'
  end.

(** [d[k] = v]: an existing key keeps its place and takes the new value, a
    new key goes last. *)
Fixpoint dict_set {V} (k : string) (v : V) (d : list (string * V))
    : list (string * V) :=
  match d with
  | [] => [(k, v)]
  | (k', v') :: d' =>
      if String.eqb k k' then (k', v) :: d' else (k', v') :: dict_set k v d'
  end.

(** [type(x).__name__], as the interpreter prints it in a [TypeError]. *)
Definition type_name (x : json) : string :=
  match x with
  | JNull => "NoneType"
  | JBool _ => "bool"
  | JInt _ => "int"
  | JFloat _ => "float"
  | JStr _ => "str"
  | JList _ => "list"
  | JDict _ => "dict"
  end.

(** [x[k] = v] with a string key [k]: only a dict accepts it. *)
Definition setitem (x : json) (k : string) (v : json) : result json :=
  match x with
  | JDict d => Return (JDict (dict_set k v d))
  | JList _ =>
      Raise (Exn TypeError "list indices must be integers or slices, not str")
  | _ =>
      Raise (Exn TypeError
               ("'" +:+ type_name x +:+ "' object does not support item assignment"))
  end.

(** Truthiness of a value read from a nullable text column. *)
Definition truthy (x : option string) : bool :=
  match x with
  | None => false
  | Some EmptyString => false
  | Some _ => true
  end.

(* ================================================================= *)
(** ** Strings *)

Definition nl : string := String (ascii_of_nat 10) "".

(** [str.split('.')]: never empty. *)
Fixpoint split_dot (s : string) : list string :=
  match s with
  | "" => [""]
  | String c s' =>
      if Ascii.eqb c "."%char then "" :: split_dot s'
      else match split_dot s' with
           | [] => [String c ""]
           | x :: xs => String c x :: xs
           end
  end.

(** [s.split('.')[-1]]. *)
Definition last_segment (s : string) : string := List.last (split_dot s) "".

(** [f"{x}"] of a value that may be [None]. *)
Definition fmt_opt (x : option string) : string := default "None" x.

(* ================================================================= *)
(** ** Table configurations *)

(** One entry of [table_configs].  A field is [None] when the dictionary
    lacks the key; every value the script reads is a string. *)
Record config : Type := Config {
  source_table : option string;
  hub_table : option string;
  cur_satellite_table : option string;
  bizview_table : option string;
  source_key : option string;
  hub_key : option string;
  satellite_hash_key : option string;
  bizview_key : option string;
  deleted_column : option string;
  columns_to_compare : option (list string);
  custom_except_query : option string
}.

Definition entity_except_query : string :=
  nl +:+
  "SELECT ID, NAME, CODE, STATUS, ACTIVE_DATE, ADDRESS, CITY, STATE, ZIP," +:+ nl +:+
  "       PHONE, EMAIL, TIMEZONE, TYPE_ID, REGION_ID, MANAGER_ID," +:+ nl +:+
  "       REFERENCE_ID, EXTERNAL_ID, STATUS_CODE, CREATED_BY, UPDATED_BY, " +:+ nl +:+
  "       UNIQUE_ID, _SYNCED_AT" +:+ nl +:+
  "FROM SOURCE_DB.SOURCE_SCHEMA.ENTITY_TABLE" +:+ nl +:+
  "EXCEPT" +:+ nl +:+
  "SELECT E.ENTITY_ID, NAME, CODE, STATUS, ACTIVE_DATE, ADDRESS, CITY, STATE, ZIP," +:+ nl +:+
  "       PHONE, EMAIL, TIMEZONE, TYPE_ID, REGION_ID, MANAGER_ID," +:+ nl +:+
  "       REFERENCE_ID, EXTERNAL_ID, STATUS_CODE, CREATED_BY, UPDATED_BY, " +:+ nl +:+
  "       UNIQUE_ID, _SYNCED_AT" +:+ nl +:+
  "FROM DV_DB.RAWVAULT.H_ENTITY E" +:+ nl +:+
  "JOIN DV_DB.RAWVAULT.S_ENTITY_LROC_INFO SE ON E.HK_H_ENTITY = SE.HK_H_ENTITY" +:+ nl.

Definition entity_config : config := {|
  source_table := Some "SOURCE_DB.SOURCE_SCHEMA.ENTITY_TABLE";
  hub_table := Some "DV_DB.RAWVAULT.H_ENTITY";
  cur_satellite_table := Some "DV_DB.RAWVAULT.S_ENTITY_LROC_INFO_CURRENT";
  bizview_table := Some "DV_DB.BIZVIEWS.FACT_ENTITY";
  source_key := Some "ID";
  hub_key := Some "ENTITY_ID";
  satellite_hash_key := Some "HK_H_ENTITY";
  bizview_key := Some "ENTITY_ID";
  deleted_column := Some "_IS_DELETED";
  columns_to_compare := Some
    ["NAME"; "CODE"; "STATUS"; "ACTIVE_DATE"; "ADDRESS"; "CITY"; "STATE"; "ZIP";
     "PHONE"; "EMAIL"; "TIMEZONE"; "TYPE_ID"; "REGION_ID"; "MANAGER_ID";
     "REFERENCE_ID"; "EXTERNAL_ID"; "STATUS_CODE"; "CREATED_BY"; "UPDATED_BY";
     "UNIQUE_ID"; "_SYNCED_AT"];
  custom_except_query := Some entity_except_query
|}.

Definition table_configs : list config := [entity_config].

(* ================================================================= *)
(** ** The output table *)

Inductive data_type : Set := StringType | LongType | VariantType.

Record StructField : Set := { field_name : string; field_type : data_type }.

Definition result_schema : list StructField :=
  [ {| field_name := "TABLE_NAME"; field_type := StringType |};
    {| field_name := "SOURCE_TABLE"; field_type := StringType |};
    {| field_name := "HUB_TABLE"; field_type := StringType |};
    {| field_name := "SATELLITE_TABLE"; field_type := StringType |};
    {| field_name := "BIZVIEW_TABLE"; field_type := StringType |};
    {| field_name := "SOURCE_COUNT"; field_type := LongType |};
    {| field_name := "HUB_COUNT"; field_type := LongType |};
    {| field_name := "LINK_COUNT"; field_type := LongType |};
    {| field_name := "CURRENT_SATELLITE_COUNT"; field_type := LongType |};
    {| field_name := "BIZVIEW_COUNT"; field_type := LongType |};
    {| field_name := "SOURCE_TO_HUB_LOSS"; field_type := LongType |};
    {| field_name := "HUB_TO_LINK_LOSS"; field_type := LongType |};
    {| field_name := "HUB_TO_SAT_LOSS"; field_type := LongType |};
    {| field_name := "LINK_TO_SAT_LOSS"; field_type := LongType |};
    {| field_name := "SAT_TO_BIZVIEW_LOSS"; field_type := LongType |};
    {| field_name := "TOTAL_ROWS_LOST"; field_type := LongType |};
    {| field_name := "DELETED_RECORDS"; field_type := LongType |};
    {| field_name := "LOST_RECORDS_DETAILS"; field_type := VariantType |} ].

(** A cell of a result tuple: a Python [str], [int] or [None]. *)
Inductive value : Set :=
  | VStr (s : string)
  | VLong (n : Z)
  | VNone.

Definition of_opt_str (x : option string) : value :=
  match x with
  | Some s => VStr s
  | None => VNone
  end.

(** A cell fits a column: a string (or NULL) in a string column, an integer
    in a long column, a JSON text in a variant column. *)
Definition fits (f : StructField) (v : value) : bool :=
  match field_type f, v with
  | StringType, (VStr _ | VNone) => true
  | LongType, VLong _ => true
  | VariantType, VStr _ => true
  | _, _ => false
  end.

(** The cell of a tuple under a column name of a schema. *)
Fixpoint field (schema : list StructField) (name : string) (row : list value)
    : option value :=
  match schema, row with
  | f :: schema', v :: row' =>
      if String.eqb (field_name f) name then Some v else field schema' name row'
  | _, _ => None
  end.

Record DataFrame : Type := { df_schema : list StructField; df_rows : list (list value) }.

(* ================================================================= *)
(** ** The warehouse session *)

(** What the script asks of a Snowpark session, each answer typed by the SQL
    that produces it:
    - [sql_scalar q] is [session.sql(q).collect()[0][0]] for a
      [SELECT COUNT( * )] query: an integer, or the exception raised on the
      way;
    - [sql_record_json q] is [session.sql(q).collect()] for the query whose
      only column is [RECORD_JSON], each row read at that column: a text or
      NULL;
    - [create_dataframe_error data schema] is the exception
      [session.create_dataframe(data, schema=schema)] raises, if it raises. *)
Record Session : Type := {
  sql_scalar : string -> result Z;
  sql_record_json : string -> result (list (option string));
  create_dataframe_error : list (list value) -> list StructField -> option exn
}.

Definition create_dataframe (session : Session) (data : list (list value))
    (schema : list StructField) : result DataFrame :=
  match create_dataframe_error session data schema with
  | Some e => Raise e
  | None => Return {| df_schema := schema; df_rows := data |}
  end.

(* ================================================================= *)
(** ** The script *)

(** The dictionary [main] stores under [lost_records[table_name]]: its keys
    are fixed, in this order. *)
Record lost_entry : Type := {
  source_to_hub : list json;
  missing_count : Z;
  hub_to_satellite : list json;
  hub_to_link : list json;
  link_to_satellite : list json;
  satellite_to_bizview : list json;
  deleted : Z
}.

Definition lost_entry_json (e : lost_entry) : json :=
  JDict [ ("source_to_hub", JList (source_to_hub e));
          ("missing_count", JInt (missing_count e));
          ("hub_to_satellite", JList (hub_to_satellite e));
          ("hub_to_link", JList (hub_to_link e));
          ("link_to_satellite", JList (link_to_satellite e));
          ("satellite_to_bizview", JList (satellite_to_bizview e));
          ("deleted", JInt (deleted e)) ].

(** The two containers [main] fills while it loops. *)
Record main_state : Type := {
  results : list (list value);
  lost_records : list (string * lost_entry)
}.

(** Statements of [main]'s loop body: they read and write the containers and
    may raise; what was written before an exception stays written. *)
Definition M (A : Type) : Type := main_state -> main_state * result A.

#[export] Instance M_ret : MRet M := fun A a st => (st, Return a).
#[export] Instance M_bind : MBind M := fun A B k m st =>
  match m st with
  | (st', Return a) => k a st'
  | (st', Raise e) => (st', Raise e)
  end.

Definition lift {A} (r : result A) : M A := fun st => (st, r).

(** [try: body except Exception as e: handler e] around statements. *)
Definition try_except_M {A} (body : M A) (handler : exn -> M A) : M A := fun st =>
  match body st with
  | (st', Return a) => (st', Return a)
  | (st', Raise e) => handler e st'
  end.

(** [lost_records[k] = e]. *)
Definition set_lost_records (k : string) (e : lost_entry) : M unit := fun st =>
  ({| results := results st; lost_records := dict_set k e (lost_records st) |},
   Return tt).

(** [lost_records[k]]. *)
Definition lookup_lost_records (st : main_state) (k : string) : result lost_entry :=
  match dict_get k (lost_records st) with
  | Some e => Return e
  | None => Raise (Exn KeyError ("'" +:+ k +:+ "'"))
  end.

Definition get_lost_records (k : string) : M lost_entry := fun st =>
  (st, lookup_lost_records st k).

(** [results.append(row)]. *)
Definition append_result (row : list value) : M unit := fun st =>
  ({| results := (results st ++ [row])%list; lost_records := lost_records st |},
   Return tt).

(** [for config in configs: body config]. *)
Fixpoint for_configs (body : config -> M unit) (configs : list config) : M unit :=
  match configs with
  | [] => mret tt
  | config :: configs' => _ ← body config; for_configs body configs'
  end.

Section Script.

(** The two functions of Python's [json] module that the script calls:
    [json.loads(text)], which may raise, and [json.dumps(obj, indent=4)]. *)
Variable json_loads : string -> result json.
Variable json_dumps : json -> string.

(** The [__metadata] dictionary of a record or of an error entry, from the
    four table names the caller resolved. *)
Definition metadata (source hub satellite bizview : string) : list (string * json) :=
  [ ("source_table", JStr source);
    ("hub_table", JStr hub);
    ("satellite_table", JStr satellite);
    ("bizview_table", JStr bizview) ].

(** [config.get(key, 'UNKNOWN_...')] for the four table names. *)
Definition source_or_unknown (config : config) : string :=
  default "UNKNOWN_SOURCE" (source_table config).
Definition hub_or_unknown (config : config) : string :=
  default "UNKNOWN_HUB" (hub_table config).
Definition satellite_or_unknown (config : config) : string :=
  default "UNKNOWN_SATELLITE" (cur_satellite_table config).
Definition bizview_or_unknown (config : config) : string :=
  default "UNKNOWN_BIZVIEW" (bizview_table config).

Definition config_metadata (config : config) : list (string * json) :=
  metadata (source_or_unknown config) (hub_or_unknown config)
           (satellite_or_unknown config) (bizview_or_unknown config).

(** The single-entry list the handlers of lines 194-228 return. *)
Definition error_entry (label : string) (e : exn) (config : config) : json :=
  JDict [ ("error", JStr (label +:+ exn_str e));
          ("__metadata", JDict (config_metadata config)) ].

Definition count_query (except_query : string) : string :=
  "SELECT COUNT(*) FROM (" +:+ except_query +:+ ")".

Definition json_query (except_query : string) (limit : Z) : string :=
  nl +:+
  "            WITH missing_records AS (" +:+ nl +:+
  "                " +:+ except_query +:+ nl +:+
  "                LIMIT " +:+ pretty limit +:+ nl +:+
  "            )" +:+ nl +:+
  "            SELECT " +:+ nl +:+
  "                TO_JSON(OBJECT_CONSTRUCT(*)) AS RECORD_JSON" +:+ nl +:+
  "            FROM missing_records" +:+ nl +:+
  "            ".

(** The body of the loop over the collected rows: what one row appends to
    [missing_records]. *)
Definition record_of_row (source hub satellite bizview : string)
    (RECORD_JSON : option string) : result json :=
  if truthy RECORD_JSON then
    try_except_class JSONDecodeError
      (record_dict ← json_loads (default "" RECORD_JSON);
       record_dict ← setitem record_dict "__metadata"
         (JDict (metadata source hub satellite bizview
                   ++ [("record_type", JStr "missing")])%list);
       record_dict ← setitem record_dict "__record_separator" (JBool true);
       Return record_dict)
      (fun json_err =>
         Return (JDict [ ("error", JStr ("Failed to parse JSON: " +:+ exn_str json_err));
                         ("__metadata", JDict (metadata source hub satellite bizview));
                         ("__record_separator", JBool true) ]))
  else
    Return (JDict [ ("error", JStr "Empty JSON result");
                    ("__metadata", JDict (metadata source hub satellite bizview));
                    ("__record_separator", JBool true) ]).

Definition sample_note (source hub satellite bizview : string)
    (limit missing_count : Z) : json :=
  JDict [ ("NOTE", JStr ("Showing " +:+ pretty limit +:+ " of " +:+ pretty missing_count
                           +:+ " total missing records"));
          ("source_table", JStr source);
          ("hub_table", JStr hub);
          ("satellite_table", JStr satellite);
          ("bizview_table", JStr bizview) ].

(** Lines 130-179: run the JSON query and turn each collected row into an
    entry of [missing_records]. *)
Definition collect_missing_records (session : Session) (config : config)
    (query : string) : result (list json) :=
  rows ← sql_record_json session query;
  for_each (record_of_row (source_or_unknown config) (hub_or_unknown config)
                          (satellite_or_unknown config) (bizview_or_unknown config))
           rows.

Definition extract_missing_records (session : Session) (config : config) (limit : Z)
    : result (Z * list json) :=
  try_except
    (if negb (truthy (custom_except_query config)) then Return (0, [])
     else
       try_except
         (let source_table := source_or_unknown config in
          let hub_table := hub_or_unknown config in
          let satellite_table := satellite_or_unknown config in
          let bizview_table := bizview_or_unknown config in
          except_query ←
            match custom_except_query config with
            | Some q => Return q
            | None => Raise (Exn KeyError "'custom_except_query'")
            end;
          missing_count ←
            try_except (sql_scalar session (count_query except_query))
                       (fun count_error => Return 0);
          try_except
            (missing_records ←
               collect_missing_records session config (json_query except_query limit);
             Return (missing_count,
                     if limit <? missing_count
                     then missing_records
                            ++ [sample_note source_table hub_table satellite_table
                                            bizview_table limit missing_count]
                     else missing_records))
            (fun json_error =>
               Return (missing_count,
                       [error_entry "JSON processing error: " json_error config])))
         (fun query_error => Return (0, [error_entry "Query error: " query_error config])))
    (fun e => Return (0, [error_entry "Critical error: " e config])).

Definition source_count_query (source_table : option string) : string :=
  "SELECT COUNT(*) FROM " +:+ fmt_opt source_table.

Definition non_deleted_query (source_table : option string) (deleted_col : string)
    : string :=
  "SELECT COUNT(*) FROM " +:+ fmt_opt source_table +:+ " WHERE " +:+ deleted_col
    +:+ " = FALSE".

(** Lines 284-291 of [main]: the source row count, 0 when the query fails. *)
Definition count_source_records (session : Session) (source_table : option string)
    : result Z :=
  try_except (sql_scalar session (source_count_query source_table))
             (fun e => Return 0).

(** Lines 293-305 of [main]: [(non_deleted_count, deleted_count)].  Without a
    [deleted_column], or when its query fails, every source row counts as not
    deleted. *)
Definition count_non_deleted_records (session : Session) (config : config)
    (source_count : Z) : result (Z * Z) :=
  match deleted_column config with
  | Some deleted_col =>
      try_except
        (non_deleted_count ←
           sql_scalar session (non_deleted_query (source_table config) deleted_col);
         Return (non_deleted_count, source_count - non_deleted_count))
        (fun e => Return (source_count, 0))
  | None => Return (source_count, 0)
  end.

(** The default of [extract_missing_records]'s [limit] parameter. *)
Definition default_limit : Z := 10.

(** The body of [main]'s loop for one configuration. *)
Definition process_config (session : Session) (config : config) : M unit :=
  try_except_M
    (let table_name := last_segment (default "" (source_table config)) in
     let source_table_ := source_table config in
     let hub_table_ := default "" (hub_table config) in
     let satellite_table := default "" (cur_satellite_table config) in
     let bizview_table_ := default "" (bizview_table config) in
     source_count ← lift (count_source_records session source_table_);
     '(non_deleted_count, deleted_count) ←
       lift (count_non_deleted_records session config source_count);
     '(source_hub_loss, missing_records) ←
       lift (extract_missing_records session config default_limit);
     _ ← set_lost_records table_name
           {| source_to_hub := missing_records;
              missing_count := source_hub_loss;
              hub_to_satellite := [];
              hub_to_link := [];
              link_to_satellite := [];
              satellite_to_bizview := [];
              deleted := deleted_count |};
     let hub_count := non_deleted_count - source_hub_loss in
     let hub_to_link_loss := 0 in
     let hub_to_sat_loss := 0 in
     let link_to_sat_loss := 0 in
     let sat_to_bizview_loss := 0 in
     let total_rows_lost :=
       source_hub_loss + hub_to_link_loss + hub_to_sat_loss + link_to_sat_loss
         + sat_to_bizview_loss in
     entry ← get_lost_records table_name;
     append_result
       [ VStr table_name;
         of_opt_str source_table_;
         VStr hub_table_;
         VStr satellite_table;
         VStr bizview_table_;
         VLong non_deleted_count;
         VLong hub_count;
         VLong hub_count;
         VLong hub_count;
         VLong hub_count;
         VLong source_hub_loss;
         VLong hub_to_link_loss;
         VLong hub_to_sat_loss;
         VLong link_to_sat_loss;
         VLong sat_to_bizview_loss;
         VLong total_rows_lost;
         VLong deleted_count;
         VStr (json_dumps (lost_entry_json entry)) ])
    (fun e => mret tt).

Definition init_state : main_state := {| results := []; lost_records := [] |}.

(** The containers after the loop over [configs]. *)
Definition main_loop (session : Session) (configs : list config) : main_state :=
  (for_configs (process_config session) configs init_state).1.

(** [t[i]] on a result tuple. *)
Definition tuple_index (t : list value) (i : nat) : result value :=
  match t !! i with
  | Some v => Return v
  | None => Raise (Exn IndexError "tuple index out of range")
  end.

(** One turn of the summary loop: the sample size it prints for a result. *)
Definition summary_sample_size (st : main_state) (result_ : list value) : result Z :=
  table_name ← tuple_index result_ 0;
  _ ← tuple_index result_ 1;
  _ ← tuple_index result_ 2;
  _ ← tuple_index result_ 3;
  _ ← tuple_index result_ 4;
  _ ← tuple_index result_ 5;
  _ ← tuple_index result_ 15;
  _ ← tuple_index result_ 16;
  entry ←
    match table_name with
    | VStr k => lookup_lost_records st k
    | VLong n => Raise (Exn KeyError (pretty n))
    | VNone => Raise (Exn KeyError "None")
    end;
  let sample_size := Z.of_nat (length (source_to_hub entry)) in
  Return (if (10 <? missing_count entry)%Z then sample_size - 1 else sample_size).

(** [main] over a configuration list. *)
Definition main_with (configs : list config) (session : Session) : result DataFrame :=
  let st := main_loop session configs in
  try_except
    (results_df ← create_dataframe session (results st) result_schema;
     _ ← for_each (summary_sample_size st) (results st);
     Return results_df)
    (fun e => create_dataframe session [] result_schema).

Definition main (session : Session) : result DataFrame :=
  main_with table_configs session.

End Script.

(* ================================================================= *)
(** ** Vocabulary of the specification *)

(** The row count of a table, asked the way the script asks for the source
    count: what "counting rows at a layer" of the warehouse would return. *)
Definition count_rows (session : Session) (table : string) : result Z :=
  sql_scalar session ("SELECT COUNT(*) FROM " +:+ table).

(** The count [extract_missing_records] reports for an EXCEPT query: the
    answer to the count query, 0 when that query fails (lines 108-115). *)
Definition reported_count (session : Session) (q : string) : Z :=
  match sql_scalar session (count_query q) with
  | Return n => n
  | Raise _ => 0
  end.

(** An entry of the returned list that stands for a row of the sample: the
    loop over the collected rows marks each one with [__record_separator]. *)
Definition is_sample_entry (x : json) : bool :=
  match x with
  | JDict d => bool_decide (is_Some (dict_get "__record_separator" d))
  | _ => false
  end.

(** An entry that reports an error. *)
Definition is_error_entry (x : json) : bool :=
  match x with
  | JDict d => bool_decide (is_Some (dict_get "error" d))
  | _ => false
  end.

Definition is_dict (x : json) : bool :=
  match x with
  | JDict _ => true
  | _ => false
  end.

Section Vocabulary.

Variable json_loads : string -> result json.
Variable json_dumps : json -> string.

(** [row] and [entry] are what one turn of [main]'s loop appends to [results]
    and stores in [lost_records] for [config]: the tuple of lines 334-353,
    over the three counts and the extraction the turn obtained. *)
Definition summarises (session : Session) (config : config)
    (row : list value) (entry : lost_entry) : Prop :=
  exists source_count non_deleted_count deleted_count source_hub_loss missing_records,
    count_source_records session (source_table config) = Return source_count
    /\ count_non_deleted_records session config source_count
         = Return (non_deleted_count, deleted_count)
    /\ extract_missing_records json_loads session config default_limit
         = Return (source_hub_loss, missing_records)
    /\ entry = {| source_to_hub := missing_records;
                  missing_count := source_hub_loss;
                  hub_to_satellite := [];
                  hub_to_link := [];
                  link_to_satellite := [];
                  satellite_to_bizview := [];
                  deleted := deleted_count |}
    /\ row = [ VStr (last_segment (default "" (source_table config)));
               of_opt_str (source_table config);
               VStr (default "" (hub_table config));
               VStr (default "" (cur_satellite_table config));
               VStr (default "" (bizview_table config));
               VLong non_deleted_count;
               VLong (non_deleted_count - source_hub_loss);
               VLong (non_deleted_count - source_hub_loss);
               VLong (non_deleted_count - source_hub_loss);
               VLong (non_deleted_count - source_hub_loss);
               VLong source_hub_loss;
               VLong 0;
               VLong 0;
               VLong 0;
               VLong 0;
               VLong (source_hub_loss + 0 + 0 + 0 + 0);
               VLong deleted_count;
               VStr (json_dumps (lost_entry_json entry)) ].

End Vocabulary.

(** Two sessions answer alike every query that [main] issues for [config]:
    the source count, the non-deleted count, the EXCEPT count and the JSON
    query. *)
Definition agree_on_issued (session1 session2 : Session) (config : config) : Prop :=
  sql_scalar session1 (source_count_query (source_table config))
    = sql_scalar session2 (source_count_query (source_table config))
  /\ (forall col, deleted_column config = Some col ->
        sql_scalar session1 (non_deleted_query (source_table config) col)
          = sql_scalar session2 (non_deleted_query (source_table config) col))
  /\ (forall q, custom_except_query config = Some q ->
        sql_scalar session1 (count_query q) = sql_scalar session2 (count_query q)
        /\ sql_record_json session1 (json_query q default_limit)
             = sql_record_json session2 (json_query q default_limit)).

(** A tuple fits the output schema: one cell per column, each of the
    column's type. *)
Definition conforms (schema : list StructField) (row : list value) : Prop :=
  Forall2 (fun f v => fits f v = true) schema row.

(* ================================================================= *)
(** ** Concrete inputs for the examples *)

Definition dq : string := String (ascii_of_nat 34) "".

(** The text [{"ID": 7}]. *)
Definition id7_text : string := "{" +:+ dq +:+ "ID" +:+ dq +:+ ": 7}".

(** [json.loads] on the texts the examples use; any other text is treated as
    one that does not decode. *)
Definition loads_table (text : string) : result json :=
  if String.eqb text id7_text then Return (JDict [("ID", JInt 7)])
  else if String.eqb text "{}" then Return (JDict [])
  else if String.eqb text "[]" then Return (JList [])
  else Raise (Exn JSONDecodeError "Expecting value: line 1 column 1 (char 0)").

(** A printer standing in for [json.dumps(obj, indent=4)]: the same layout, for
    values whose strings need no escaping. *)
Fixpoint dumps_at (depth : nat) (x : json) : string :=
  let pad n := String.concat "" (replicate n "    ") in
  match x with
  | JNull => "null"
  | JBool true => "true"
  | JBool false => "false"
  | JInt n => pretty n
  | JFloat r => r
  | JStr s => dq +:+ s +:+ dq
  | JList [] => "[]"
  | JList l =>
      "[" +:+ nl +:+
      String.concat ("," +:+ nl)
        (map (fun y => pad (S depth) +:+ dumps_at (S depth) y) l)
      +:+ nl +:+ pad depth +:+ "]"
  | JDict [] => "{}"
  | JDict d =>
      "{" +:+ nl +:+
      String.concat ("," +:+ nl)
        (map (fun kv => pad (S depth) +:+ dq +:+ kv.1 +:+ dq +:+ ": "
                          +:+ dumps_at (S depth) kv.2) d)
      +:+ nl +:+ pad depth +:+ "}"
  end.

Definition dumps_indent4 (x : json) : string := dumps_at 0 x.

Definition sql_error : exn := Exn SnowparkSQLException "SQL compilation error".

(** A session that answers the listed queries and raises on any other. *)
Definition answering (scalars : list (string * result Z))
    (records : list (string * result (list (option string))))
    (frame_error : list (list value) -> list StructField -> option exn) : Session := {|
  sql_scalar q := default (Raise sql_error) (dict_get q scalars);
  sql_record_json q := default (Raise sql_error) (dict_get q records);
  create_dataframe_error := frame_error
|}.

Definition entity_source_count : string :=
  "SELECT COUNT(*) FROM SOURCE_DB.SOURCE_SCHEMA.ENTITY_TABLE".
Definition entity_non_deleted_count : string :=
  "SELECT COUNT(*) FROM SOURCE_DB.SOURCE_SCHEMA.ENTITY_TABLE WHERE _IS_DELETED = FALSE".

(** The two queries [extract_missing_records] sends for [entity_config] under
    the default limit, as the warehouse receives them. *)
Definition entity_except_count : string :=
  "SELECT COUNT(*) FROM (" +:+ entity_except_query +:+ ")".
Definition entity_json_sample : string :=
  nl +:+
  "            WITH missing_records AS (" +:+ nl +:+
  "                " +:+ entity_except_query +:+ nl +:+
  "                LIMIT 10" +:+ nl +:+
  "            )" +:+ nl +:+
  "            SELECT " +:+ nl +:+
  "                TO_JSON(OBJECT_CONSTRUCT(*)) AS RECORD_JSON" +:+ nl +:+
  "            FROM missing_records" +:+ nl +:+
  "            ".

(** The four queries [main] issues for [entity_config], answered: 10 source
    rows, none deleted, one of them missing from the hub. *)
Definition entity_scalars : list (string * result Z) :=
  [ (entity_source_count, Return 10);
    (entity_non_deleted_count, Return 10);
    (entity_except_count, Return 1) ].
Definition entity_records : list (string * result (list (option string))) :=
  [ (entity_json_sample, Return [Some id7_text]) ].

(** A warehouse whose hub and current satellite hold 12 rows and whose
    business view holds 11 (a hub keeps keys the source no longer has). *)
Definition entity_session : Session :=
  answering
    (entity_scalars ++
     [ ("SELECT COUNT(*) FROM DV_DB.RAWVAULT.H_ENTITY", Return 12);
       ("SELECT COUNT(*) FROM DV_DB.RAWVAULT.S_ENTITY_LROC_INFO_CURRENT", Return 12);
       ("SELECT COUNT(*) FROM DV_DB.BIZVIEWS.FACT_ENTITY", Return 11) ])
    entity_records
    (fun _ _ => None).

(** The same answers to the issued queries, and none for the layer tables. *)
Definition bare_session : Session :=
  answering entity_scalars entity_records (fun _ _ => None).

(** 25 rows are missing; the warehouse returns the 10 that [LIMIT 10] lets
    through. *)
Definition sampling_session : Session :=
  answering
    [ (entity_source_count, Return 40);
      (entity_non_deleted_count, Return 38);
      (entity_except_count, Return 25) ]
    [ (entity_json_sample, Return (replicate 10 (Some id7_text))) ]
    (fun _ _ => None).

(** The count queries fail; the JSON query answers. *)
Definition count_down_session : Session :=
  answering [] entity_records (fun _ _ => None).

(** The JSON query fails; the count queries answer. *)
Definition json_down_session : Session :=
  answering entity_scalars [] (fun _ _ => None).

(** Two collected rows whose text does not decode. *)
Definition garbled_session : Session :=
  answering
    [ (entity_except_count, Return 2) ]
    [ (entity_json_sample, Return [Some "oops"; Some "oops"]) ]
    (fun _ _ => None).

Definition frame_error : exn := Exn TypeError "cannot build the DataFrame".

(** [create_dataframe] raises on any tuple, and builds an empty DataFrame. *)
Definition rejecting_session : Session :=
  answering entity_scalars entity_records
    (fun data _ => match data with [] => None | _ => Some frame_error end).

(** [create_dataframe] raises whatever it is given. *)
Definition dead_session : Session :=
  answering entity_scalars entity_records (fun _ _ => Some frame_error).

(** A second configuration: no deleted column and no EXCEPT query. *)
Definition order_config : config := {|
  source_table := Some "SOURCE_DB.SOURCE_SCHEMA.ORDER_TABLE";
  hub_table := Some "DV_DB.RAWVAULT.H_ORDER";
  cur_satellite_table := Some "DV_DB.RAWVAULT.S_ORDER_LROC_INFO_CURRENT";
  bizview_table := Some "DV_DB.BIZVIEWS.FACT_ORDER";
  source_key := Some "ID";
  hub_key := Some "ORDER_ID";
  satellite_hash_key := Some "HK_H_ORDER";
  bizview_key := Some "ORDER_ID";
  deleted_column := None;
  columns_to_compare := None;
  custom_except_query := None
|}.

(* ================================================================= *)
(** ** [safe_json_conversion] *)

(** A Python value that is neither a list nor a dict, as far as [str] and
    [is None] tell such values apart.  A float is carried by the text [repr]
    gives, and any other object (a [Decimal], a date) by the text [str]
    gives. *)
Inductive pyscalar : Type :=
  | SNone
  | SBool (b : bool)
  | SInt (n : Z)
  | SFloat (repr : string)
  | SStr (s : string)
  | SObject (text : string).

(** The values of a row: scalars, lists, and dicts keyed by scalars. *)
Inductive pyval : Type :=
  | PScalar (x : pyscalar)
  | PList (l : list pyval)
  | PDict (d : list (pyscalar * pyval)).

(** [str(x)]. *)
Definition py_str (x : pyscalar) : string :=
  match x with
  | SNone => "None"
  | SBool true => "True"
  | SBool false => "False"
  | SInt n => pretty n
  | SFloat repr => repr
  | SStr s => s
  | SObject text => text
  end.

(** What [safe_json_conversion] can be handed: a dict; an object with a
    [columns] attribute (a list of names) that iterates over its cells; an
    object that is not a dict and has no [columns] but has [items()]; or any
    object on which the [try] block raises (one with neither [columns] nor
    [items], for instance), [error_text] being what [str] gives of the
    exception that is caught. *)
Inductive row_like : Type :=
  | IsDict (items : list (pyscalar * pyval))
  | HasColumns (columns : list string) (cells : list pyval)
  | HasItems (items : list (pyscalar * pyval))
  | Raising (error_text : string).

(** [str(v) if not isinstance(v, (dict, list, type(None))) else v]. *)
Definition str_unless_container (v : pyval) : pyval :=
  match v with
  | PScalar SNone => v
  | PScalar x => PScalar (SStr (py_str x))
  | PList _ | PDict _ => v
  end.

(** The dict comprehension of lines 56-57 and 76-77: the items are inserted
    one after the other under [str(k)]. *)
Definition comprehension (items : list (pyscalar * pyval)) : list (string * pyval) :=
  fold_left (fun acc kv => dict_set (py_str kv.1) (str_unless_container kv.2) acc)
            items [].

(** [dict(zip(row.columns, row))]. *)
Definition zip_dict (columns : list string) (cells : list pyval)
    : list (string * pyval) :=
  fold_left (fun acc kv => dict_set kv.1 kv.2 acc) (combine columns cells) [].

(** The loop of lines 64-72 over [row_dict.items()]. *)
Definition process_row_dict (row_dict : list (string * pyval))
    : list (string * pyval) :=
  fold_left
    (fun processed_dict kv =>
       match kv.2 with
       | PScalar SNone => dict_set kv.1 (PScalar SNone) processed_dict
       | PList _ | PDict _ => dict_set kv.1 kv.2 processed_dict
       | PScalar x => dict_set kv.1 (PScalar (SStr (py_str x))) processed_dict
       end)
    row_dict [].

(** The [try] block: the converted dictionary, or the text of the exception
    it raises. *)
Definition convert_or_error (row : row_like) : string + list (string * pyval) :=
  match row with
  | IsDict items => inr (comprehension items)
  | HasColumns columns cells => inr (process_row_dict (zip_dict columns cells))
  | HasItems items => inr (comprehension items)
  | Raising error_text => inl error_text
  end.

Definition safe_json_conversion (row : row_like) : list (string * pyval) :=
  match convert_or_error row with
  | inr converted => converted
  | inl e => [("error", PScalar (SStr ("Failed to convert row: " +:+ e)))]
  end.

(** A dict with string keys, as the items [safe_json_conversion] reads. *)
Definition str_items (d : list (string * pyval)) : list (pyscalar * pyval) :=
  map (fun kv => (SStr kv.1, kv.2)) d.

(* ================================================================= *)
(** ** Further vocabulary *)

(** The text has no dot. *)
Fixpoint no_dot (s : string) : bool :=
  match s with
  | "" => true
  | String c s' => negb (Ascii.eqb c "."%char) && no_dot s'
  end.

(** [table_name] of line 270. *)
Definition table_name_of (config : config) : string :=
  last_segment (default "" (source_table config)).

(** The keys of a dict, in order. *)
Definition dict_keys {V} (d : list (string * V)) : list string := map fst d.

(* ================================================================= *)
(** ** Further concrete inputs *)

(** The text [{"__metadata": 1, "ID": 7}]: a record with a column named like
    one of the markers. *)
Definition marked_text : string :=
  "{" +:+ dq +:+ "__metadata" +:+ dq +:+ ": 1, " +:+ dq +:+ "ID" +:+ dq +:+ ": 7}".

(** [loads_table], extended to [marked_text]. *)
Definition loads_marked (text : string) : result json :=
  if String.eqb text marked_text
  then Return (JDict [("__metadata", JInt 1); ("ID", JInt 7)])
  else loads_table text.

(** Three collected rows: a NULL, a text that does not decode, a record. *)
Definition mixed_session : Session :=
  answering
    [ (entity_except_count, Return 3) ]
    [ (entity_json_sample, Return [None; Some "oops"; Some id7_text]) ]
    (fun _ _ => None).

(** Two collected rows: a record, then the text of a JSON list. *)
Definition list_row_session : Session :=
  answering
    [ (entity_except_count, Return 2) ]
    [ (entity_json_sample, Return [Some id7_text; Some "[]"]) ]
    (fun _ _ => None).

(** The source count query fails; the non-deleted query answers 10. *)
Definition source_count_down_session : Session :=
  answering
    [ (entity_non_deleted_count, Return 10);
      (entity_except_count, Return 1) ]
    entity_records
    (fun _ _ => None).

(** A table of the same name in another database, without EXCEPT query. *)
Definition shadow_config : config := {|
  source_table := Some "OTHER_DB.OTHER_SCHEMA.ENTITY_TABLE";
  hub_table := Some "DV_DB.RAWVAULT.H_ENTITY";
  cur_satellite_table := Some "DV_DB.RAWVAULT.S_ENTITY_LROC_INFO_CURRENT";
  bizview_table := Some "DV_DB.BIZVIEWS.FACT_ENTITY";
  source_key := Some "ID";
  hub_key := Some "ENTITY_ID";
  satellite_hash_key := Some "HK_H_ENTITY";
  bizview_key := Some "ENTITY_ID";
  deleted_column := None;
  columns_to_compare := None;
  custom_except_query := None
|}.

(** A row with a number under a string key and, under a number, a list that
    holds a [Decimal]. *)
Definition priced_items : list (pyscalar * pyval) :=
  [ (SStr "QTY", PScalar (SInt 3));
    (SInt 2, PList [PScalar (SObject "1.50")]);
    (SStr "NOTE", PScalar SNone) ].

(* ================================================================= *)
(** * Properties *)

(** ** Dictionaries and loops *)

Lemma dict_get_set_eq {V} (k : string) (v : V) (d : list (string * V)) :
  dict_get k (dict_set k v d) = Some v.
Proof.
  induction d as [|[k' v'] d IH]; simpl.
  - now rewrite String.eqb_refl.
  - destruct (String.eqb k k') eqn:E; simpl; rewrite E; [reflexivity | exact IH].
Qed.

Lemma dict_get_set_ne {V} (k k' : string) (v : V) (d : list (string * V)) :
  k' ≠ k → dict_get k' (dict_set k v d) = dict_get k' d.
Proof.
  intros Hne. induction d as [|[k0 v0] d IH]; simpl.
  - destruct (String.eqb k' k) eqn:E; [|reflexivity].
    apply String.eqb_eq in E. contradiction.
  - destruct (String.eqb k k0) eqn:E; simpl.
    + apply String.eqb_eq in E; subst k0.
      destruct (String.eqb k' k) eqn:E'; [|reflexivity].
      apply String.eqb_eq in E'. contradiction.
    + now rewrite IH.
Qed.

Lemma truthy_Some (q : string) : truthy (Some q) = true ↔ q ≠ "".
Proof. destruct q; simpl; split; congruence. Qed.

Lemma truthy_inv (x : option string) :
  truthy x = true → ∃ q, x = Some q ∧ q ≠ "".
Proof.
  destruct x as [q|]; [|discriminate].
  intros H. exists q. split; [reflexivity | now apply truthy_Some].
Qed.

Lemma for_each_Return {A B} (f : A → result B) (l : list A) (ys : list B) :
  for_each f l = Return ys ↔ Forall2 (λ x y, f x = Return y) l ys.
Proof.
  revert ys. induction l as [|x l IH]; intros ys; simpl.
  - split.
    + intros [= <-]. constructor.
    + intros H. inversion H. reflexivity.
  - unfold mbind, result_bind, rbind.
    destruct (f x) as [y|e] eqn:Hx.
    + destruct (for_each f l) as [ys'|e] eqn:Hl.
      * split.
        -- intros [= <-]. constructor; [exact Hx | now apply IH].
        -- intros H. inversion H as [|? y0 ? ys0 Hy Hys]; subst.
           rewrite Hx in Hy. injection Hy as <-.
           apply IH in Hys. now injection Hys as <-.
      * split; [discriminate|].
        intros H. inversion H as [|? y0 ? ys0 Hy Hys]; subst.
        apply IH in Hys. discriminate.
    + split; [discriminate|].
      intros H. inversion H as [|? y0 ? ys0 Hy Hys]; subst. congruence.
Qed.

Lemma for_each_length {A B} (f : A → result B) (l : list A) (ys : list B) :
  for_each f l = Return ys → length ys = length l.
Proof.
  intros H. apply for_each_Return in H. symmetry. eapply Forall2_length, H.
Qed.

(** Unfold the error monad's operations. *)
Ltac run_result := unfold mbind, result_bind, rbind, try_except, try_except_class.

Section Extraction.

Variable json_loads : string → result json.

Implicit Types (session : Session) (config : config) (limit : Z).

(** *** One collected row *)

Lemma record_of_row_sample source hub satellite bizview row x :
  record_of_row json_loads source hub satellite bizview row = Return x →
  is_dict x = true ∧ is_sample_entry x = true.
Proof.
  unfold record_of_row.
  destruct (truthy row); [|intros [= <-]; split; reflexivity].
  run_result.
  destruct (json_loads _) as [parsed|e].
  - destruct parsed; simpl; try discriminate.
    intros [= <-]. split; [reflexivity|].
    simpl. apply bool_decide_eq_true. rewrite dict_get_set_eq. eauto.
  - destruct (exn_class_eqb _ _); [|discriminate].
    intros [= <-]. split; reflexivity.
Qed.

Lemma record_of_row_object source hub satellite bizview text d :
  text ≠ "" → json_loads text = Return (JDict d) →
  record_of_row json_loads source hub satellite bizview (Some text) =
    Return (JDict (dict_set "__record_separator" (JBool true)
                     (dict_set "__metadata"
                        (JDict (metadata source hub satellite bizview
                                  ++ [("record_type", JStr "missing")])) d))).
Proof.
  intros Hne Hd. unfold record_of_row.
  rewrite (proj2 (truthy_Some text) Hne). simpl. run_result.
  now rewrite Hd.
Qed.

(** *** The shapes of a run *)

Lemma extract_no_query session config limit :
  truthy (custom_except_query config) = false →
  extract_missing_records json_loads session config limit = Return (0, []).
Proof. unfold extract_missing_records. now intros ->. Qed.

Lemma extract_with_query session config limit q :
  custom_except_query config = Some q → q ≠ "" →
  extract_missing_records json_loads session config limit =
    Return (reported_count session q,
            match collect_missing_records json_loads session config (json_query q limit) with
            | Return recs =>
                if limit <? reported_count session q
                then recs ++ [sample_note (source_or_unknown config) (hub_or_unknown config)
                                (satellite_or_unknown config) (bizview_or_unknown config)
                                limit (reported_count session q)]
                else recs
            | Raise e => [error_entry "JSON processing error: " e config]
            end).
Proof.
  intros Hq Hne.
  unfold extract_missing_records, reported_count.
  rewrite Hq, (proj2 (truthy_Some q) Hne). simpl. run_result.
  destruct (sql_scalar session (count_query q));
    destruct (collect_missing_records _ _ _ _); reflexivity.
Qed.

Lemma collect_Return session config query recs :
  collect_missing_records json_loads session config query = Return recs →
  ∃ rows, sql_record_json session query = Return rows
    ∧ Forall2 (λ row x, record_of_row json_loads (source_or_unknown config)
                 (hub_or_unknown config) (satellite_or_unknown config)
                 (bizview_or_unknown config) row = Return x) rows recs.
Proof.
  unfold collect_missing_records. run_result.
  destruct (sql_record_json session query) as [rows|e]; [|discriminate].
  intros H. exists rows. split; [reflexivity | now apply for_each_Return].
Qed.

Lemma collected_are_samples session config query recs :
  collect_missing_records json_loads session config query = Return recs →
  Forall (λ x, is_dict x = true ∧ is_sample_entry x = true) recs.
Proof.
  intros (rows & _ & H)%collect_Return.
  induction H as [|row x rows recs Hx _ IH]; constructor; [|exact IH].
  eapply record_of_row_sample, Hx.
Qed.

Lemma filter_samples (recs : list json) :
  Forall (λ x, is_dict x = true ∧ is_sample_entry x = true) recs →
  List.filter is_sample_entry recs = recs.
Proof.
  induction 1 as [|x recs [_ Hx] _ IH]; simpl; [reflexivity|].
  now rewrite Hx, IH.
Qed.

(** *** Rows that do not stop the loop *)

Lemma record_of_row_in_place source hub satellite bizview row x :
  record_of_row json_loads source hub satellite bizview row = Return x →
  (truthy row = false →
   x = JDict [ ("error", JStr "Empty JSON result");
               ("__metadata", JDict (metadata source hub satellite bizview));
               ("__record_separator", JBool true) ])
  ∧ (∀ t e, row = Some t → t ≠ "" → json_loads t = Raise e →
     x = JDict [ ("error", JStr ("Failed to parse JSON: " +:+ exn_str e));
                 ("__metadata", JDict (metadata source hub satellite bizview));
                 ("__record_separator", JBool true) ]).
Proof.
  unfold record_of_row. destruct (truthy row) eqn:Ht.
  - intros Hx. split; [discriminate|].
    intros t e -> _ He. simpl in Hx. revert Hx. run_result. rewrite He.
    destruct (exn_class_eqb _ _); [|discriminate]. now intros [= <-].
  - intros [= <-]. split; [reflexivity|].
    intros t e -> Hne _. apply truthy_Some in Hne. congruence.
Qed.

Lemma for_each_in_place source hub satellite bizview rows recs :
  for_each (record_of_row json_loads source hub satellite bizview) rows = Return recs →
  Forall2 (λ row x,
             (truthy row = false →
              x = JDict [ ("error", JStr "Empty JSON result");
                          ("__metadata", JDict (metadata source hub satellite bizview));
                          ("__record_separator", JBool true) ])
             ∧ (∀ t e, row = Some t → t ≠ "" → json_loads t = Raise e →
                x = JDict [ ("error", JStr ("Failed to parse JSON: " +:+ exn_str e));
                            ("__metadata", JDict (metadata source hub satellite bizview));
                            ("__record_separator", JBool true) ]))
          rows recs.
Proof.
  intros H%for_each_Return. eapply Forall2_impl; [exact H|].
  intros row x Hx. eapply record_of_row_in_place, Hx.
Qed.

Lemma for_each_tolerant source hub satellite bizview rows :
  Forall (λ row,
            truthy row = false
            ∨ ∃ t, row = Some t
                   ∧ ((∃ e, json_loads t = Raise e ∧ exn_kind e = JSONDecodeError)
                      ∨ ∃ d, json_loads t = Return (JDict d))) rows →
  ∃ recs,
    for_each (record_of_row json_loads source hub satellite bizview) rows = Return recs
    ∧ ∀ i text d,
        rows !! i = Some (Some text) → text ≠ "" → json_loads text = Return (JDict d) →
        recs !! i =
          Some (JDict (dict_set "__record_separator" (JBool true)
                         (dict_set "__metadata"
                            (JDict (metadata source hub satellite bizview
                                      ++ [("record_type", JStr "missing")])) d))).
Proof.
  induction 1 as [|row rows Hrow _ (recs & Hrecs & IH)].
  - exists []. split; [reflexivity | intros i ? ? Hi; destruct i; discriminate].
  - assert (∃ x, record_of_row json_loads source hub satellite bizview row = Return x)
      as [x Hx].
    { unfold record_of_row. destruct (truthy row) eqn:Ht; [|eauto].
      destruct Hrow as [?|(t & -> & Hload)]; [discriminate|].
      simpl. run_result.
      destruct Hload as [(e & -> & ->)|(d & ->)]; simpl; eauto. }
    exists (x :: recs). simpl. rewrite Hx, Hrecs. split; [reflexivity|].
    intros [|i] text d Hi Hne Hd; simpl in *; [|now apply (IH i text d)].
    injection Hi as ->.
    rewrite (record_of_row_object _ _ _ _ text d Hne Hd) in Hx. now injection Hx as <-.
Qed.

Lemma for_each_raises_at source hub satellite bizview rows i t v :
  rows !! i = Some (Some t) → t ≠ "" →
  json_loads t = Return v → is_dict v = false →
  ∃ e, for_each (record_of_row json_loads source hub satellite bizview) rows = Raise e.
Proof.
  intros Hi Ht Hv Hnd.
  assert (∃ e, record_of_row json_loads source hub satellite bizview (Some t) = Raise e)
    as [e He].
  { unfold record_of_row. rewrite (proj2 (truthy_Some t) Ht). simpl. run_result.
    rewrite Hv. destruct v; try discriminate; simpl; eauto. }
  revert i Hi. induction rows as [|row rows IH]; intros i Hi; [discriminate|].
  simpl. run_result.
  destruct (record_of_row json_loads source hub satellite bizview row) as [x|e0] eqn:Hx;
    [|eauto].
  destruct i as [|i]; simpl in Hi.
  - injection Hi as ->. congruence.
  - destruct (IH i Hi) as [e' ->]. eauto.
Qed.

End Extraction.

Section ExtractionClaims.

Variable json_loads : string → result json.

Implicit Types (session : Session) (config : config) (limit : Z).

(** C7, in the form the code satisfies.
    [extract_missing_records] never raises: it always returns a count and a
    list of dictionaries.  Without a custom EXCEPT query the result is
    [(0, [])].  With one, the count is the answer to the COUNT query over the
    EXCEPT query, and just 0 when that query raises: such a failure leaves no
    entry in the list.  When the JSON query raises, or processing its rows
    raises (a row that decodes to something other than an object makes it
    raise), the list is the single "JSON processing error" dictionary
    carrying the table metadata.  When every collected row is NULL or empty,
    raises a JSON decode error, or decodes to an object, the list has one
    entry per collected row, plus the note when the count exceeds the limit,
    and each NULL, empty or undecodable row yields an error dictionary in
    place of its record. *)
Theorem extract_missing_records_total session config limit :
  ∃ n out,
    extract_missing_records json_loads session config limit = Return (n, out)
    ∧ Forall (λ x, is_dict x = true) out
    ∧ (truthy (custom_except_query config) = false → n = 0 ∧ out = [])
    ∧ (∀ q query meta,
         custom_except_query config = Some q → q ≠ "" →
         query =
           nl +:+ "            WITH missing_records AS (" +:+ nl +:+
           "                " +:+ q +:+ nl +:+
           "                LIMIT " +:+ pretty limit +:+ nl +:+
           "            )" +:+ nl +:+
           "            SELECT " +:+ nl +:+
           "                TO_JSON(OBJECT_CONSTRUCT(*)) AS RECORD_JSON" +:+ nl +:+
           "            FROM missing_records" +:+ nl +:+
           "            " →
         meta =
           JDict [ ("source_table", JStr (default "UNKNOWN_SOURCE" (source_table config)));
                   ("hub_table", JStr (default "UNKNOWN_HUB" (hub_table config)));
                   ("satellite_table",
                    JStr (default "UNKNOWN_SATELLITE" (cur_satellite_table config)));
                   ("bizview_table",
                    JStr (default "UNKNOWN_BIZVIEW" (bizview_table config))) ] →
         n = match sql_scalar session ("SELECT COUNT(*) FROM (" +:+ q +:+ ")") with
             | Return m => m
             | Raise _ => 0
             end
         ∧ (∀ e, sql_record_json session query = Raise e →
              out = [JDict [ ("error", JStr ("JSON processing error: " +:+ exn_str e));
                             ("__metadata", meta) ]])
         ∧ (∀ rows e,
              sql_record_json session query = Return rows →
              for_each (record_of_row json_loads
                          (default "UNKNOWN_SOURCE" (source_table config))
                          (default "UNKNOWN_HUB" (hub_table config))
                          (default "UNKNOWN_SATELLITE" (cur_satellite_table config))
                          (default "UNKNOWN_BIZVIEW" (bizview_table config))) rows
                = Raise e →
              out = [JDict [ ("error", JStr ("JSON processing error: " +:+ exn_str e));
                             ("__metadata", meta) ]])
         ∧ (∀ rows i t v,
              sql_record_json session query = Return rows →
              rows !! i = Some (Some t) → t ≠ "" →
              json_loads t = Return v → is_dict v = false →
              ∃ e,
                out = [JDict [ ("error", JStr ("JSON processing error: " +:+ exn_str e));
                               ("__metadata", meta) ]])
         ∧ (∀ rows,
              sql_record_json session query = Return rows →
              Forall (λ row,
                        truthy row = false
                        ∨ ∃ t, row = Some t
                               ∧ ((∃ e, json_loads t = Raise e
                                        ∧ exn_kind e = JSONDecodeError)
                                  ∨ ∃ d, json_loads t = Return (JDict d))) rows →
              ∃ recs,
                length recs = length rows
                ∧ (n ≤ limit → out = recs)
                ∧ (limit < n → ∃ note, out = recs ++ [note])
                ∧ Forall2 (λ row x,
                             (truthy row = false →
                              x = JDict [ ("error", JStr "Empty JSON result");
                                          ("__metadata", meta);
                                          ("__record_separator", JBool true) ])
                             ∧ (∀ t e, row = Some t → t ≠ "" → json_loads t = Raise e →
                                x = JDict [ ("error",
                                             JStr ("Failed to parse JSON: " +:+ exn_str e));
                                            ("__metadata", meta);
                                            ("__record_separator", JBool true) ]))
                          rows recs)).
Proof.
  destruct (truthy (custom_except_query config)) eqn:Ht.
  - destruct (truthy_inv _ Ht) as (q & Hq & Hne).
    eexists _, _. split; [apply (extract_with_query json_loads _ _ _ q Hq Hne)|].
    split; [|split; [discriminate|]].
    + destruct (collect_missing_records _ _ _ _) as [recs|e] eqn:Hc.
      * apply collected_are_samples in Hc.
        assert (Forall (λ x, is_dict x = true) recs) as Hd
          by (eapply Forall_impl; [exact Hc | now intros x [? _]]).
        destruct (limit <? _); [|exact Hd].
        apply Forall_app. split; [exact Hd | now repeat constructor].
      * now repeat constructor.
    + intros q' query meta Hq' _ -> ->. rewrite Hq in Hq'. injection Hq' as <-.
      fold (json_query q limit). unfold collect_missing_records.
      split; [reflexivity|]. split; [|split; [|split]].
      * intros e He. run_result. now rewrite He.
      * intros rows e Hrows He. run_result. rewrite Hrows.
        unfold source_or_unknown, hub_or_unknown, satellite_or_unknown,
          bizview_or_unknown. now rewrite He.
      * intros rows i t v Hrows Hi Hne' Hv Hnd.
        destruct (for_each_raises_at json_loads
                    (source_or_unknown config) (hub_or_unknown config)
                    (satellite_or_unknown config) (bizview_or_unknown config)
                    rows i t v Hi Hne' Hv Hnd) as [e He].
        exists e. run_result. now rewrite Hrows, He.
      * intros rows Hrows Hall.
        destruct (for_each_tolerant json_loads
                    (source_or_unknown config) (hub_or_unknown config)
                    (satellite_or_unknown config) (bizview_or_unknown config)
                    rows Hall) as (recs & Hrecs & _).
        exists recs. run_result. rewrite Hrows, Hrecs.
        split; [eapply for_each_length, Hrecs|].
        fold (reported_count session q).
        destruct (Z.ltb_spec limit (reported_count session q)) as [Hlt|Hge].
        -- split; [lia|]. split; [eauto|].
           apply (for_each_in_place json_loads _ _ _ _ _ _ Hrecs).
        -- split; [reflexivity|]. split; [lia|].
           apply (for_each_in_place json_loads _ _ _ _ _ _ Hrecs).
  - exists 0, []. split; [now apply extract_no_query|].
    split; [constructor|]. split; [easy|].
    intros q query meta Hq Hne. rewrite Hq in Ht.
    apply truthy_Some in Hne. congruence.
Qed.

(** C10.  When the JSON query answers and every collected row is processed,
    the returned list is the sampled records, one per collected row, followed
    by the NOTE dictionary ("Showing <limit> of <count> total missing
    records", with the four table names) exactly when the count exceeds
    [limit], the count being the answer to the COUNT query over the EXCEPT
    query (0 when it raised); with the warehouse honouring [LIMIT] (at most
    [limit] rows collected) it holds at most [limit + 1] entries. *)
Theorem note_iff_count_exceeds_limit session config limit q rows recs n :
  custom_except_query config = Some q → q ≠ "" →
  n = match sql_scalar session ("SELECT COUNT(*) FROM (" +:+ q +:+ ")") with
      | Return m => m
      | Raise _ => 0
      end →
  sql_record_json session
    (nl +:+ "            WITH missing_records AS (" +:+ nl +:+
     "                " +:+ q +:+ nl +:+
     "                LIMIT " +:+ pretty limit +:+ nl +:+
     "            )" +:+ nl +:+
     "            SELECT " +:+ nl +:+
     "                TO_JSON(OBJECT_CONSTRUCT(*)) AS RECORD_JSON" +:+ nl +:+
     "            FROM missing_records" +:+ nl +:+
     "            ") = Return rows →
  for_each (record_of_row json_loads
              (default "UNKNOWN_SOURCE" (source_table config))
              (default "UNKNOWN_HUB" (hub_table config))
              (default "UNKNOWN_SATELLITE" (cur_satellite_table config))
              (default "UNKNOWN_BIZVIEW" (bizview_table config))) rows
    = Return recs →
  ∃ out,
    extract_missing_records json_loads session config limit = Return (n, out)
    ∧ length recs = length rows
    ∧ (limit < n →
       out = recs ++
         [JDict [ ("NOTE", JStr ("Showing " +:+ pretty limit +:+ " of " +:+ pretty n
                                   +:+ " total missing records"));
                  ("source_table", JStr (default "UNKNOWN_SOURCE" (source_table config)));
                  ("hub_table", JStr (default "UNKNOWN_HUB" (hub_table config)));
                  ("satellite_table",
                   JStr (default "UNKNOWN_SATELLITE" (cur_satellite_table config)));
                  ("bizview_table",
                   JStr (default "UNKNOWN_BIZVIEW" (bizview_table config))) ]])
    ∧ (n ≤ limit → out = recs)
    ∧ (Z.of_nat (length rows) ≤ limit → Z.of_nat (length out) ≤ limit + 1).
Proof.
  intros Hq Hne -> Hrows Hrecs.
  pose proof (for_each_length _ _ _ Hrecs) as Hlen.
  fold (count_query q) (reported_count session q).
  eexists. split; [apply (extract_with_query json_loads _ _ _ q Hq Hne)|].
  unfold collect_missing_records, mbind, result_bind, rbind.
  fold (json_query q limit) in Hrows. rewrite Hrows.
  unfold source_or_unknown, hub_or_unknown, satellite_or_unknown, bizview_or_unknown.
  rewrite Hrecs.
  split; [exact Hlen|].
  destruct (Z.ltb_spec limit (reported_count session q)) as [Hlt|Hge].
  - split; [reflexivity|]. split; [lia|].
    intros Hrows_le. rewrite length_app. simpl. lia.
  - split; [lia|]. split; [reflexivity|]. lia.
Qed.

(** C5.  Whatever count the warehouse reports, the returned list carries at
    most [limit] sampled rows: the sample is the rows collected from the JSON
    query, whose text applies [LIMIT limit] to the EXCEPT query inside the
    [missing_records] subquery, before [TO_JSON] is applied; a warehouse that
    honours that [LIMIT] returns at most [limit] of them. *)
Theorem sample_bounded_by_limit session config limit n out :
  0 ≤ limit →
  (∀ q rows, custom_except_query config = Some q →
     sql_record_json session (json_query q limit) = Return rows →
     Z.of_nat (length rows) ≤ limit) →
  extract_missing_records json_loads session config limit = Return (n, out) →
  Z.of_nat (length (List.filter is_sample_entry out)) ≤ limit
  ∧ ∀ q, json_query q limit =
      nl +:+ "            WITH missing_records AS (" +:+ nl +:+
      "                " +:+ q +:+ nl +:+
      "                LIMIT " +:+ pretty limit +:+ nl +:+
      "            )" +:+ nl +:+
      "            SELECT " +:+ nl +:+
      "                TO_JSON(OBJECT_CONSTRUCT(*)) AS RECORD_JSON" +:+ nl +:+
      "            FROM missing_records" +:+ nl +:+
      "            ".
Proof.
  intros Hlimit Hhonour Hrun. split; [|reflexivity].
  destruct (truthy (custom_except_query config)) eqn:Ht.
  - destruct (truthy_inv _ Ht) as (q & Hq & Hne).
    rewrite (extract_with_query json_loads _ _ _ q Hq Hne) in Hrun.
    injection Hrun as _ <-.
    destruct (collect_missing_records _ _ _ _) as [recs|e] eqn:Hc; [|simpl; lia].
    pose proof (collected_are_samples _ _ _ _ _ Hc) as Hs.
    apply collect_Return in Hc as (rows & Hrows & Hall).
    apply Forall2_length in Hall.
    specialize (Hhonour q rows Hq Hrows).
    destruct (limit <? _).
    + rewrite List.filter_app, filter_samples by exact Hs.
      rewrite length_app. simpl. lia.
    + rewrite filter_samples by exact Hs. lia.
  - rewrite extract_no_query in Hrun by exact Ht.
    injection Hrun as _ <-. simpl. lia.
Qed.

(** C4, in the form the code satisfies.
    When every collected row is NULL or empty, raises a JSON decode error, or
    decodes to an object, a collected record whose JSON text decodes to an
    object is stored at the same position with every key of the warehouse
    object unchanged, plus two keys that the script sets: [__metadata] (the
    four table names and the record type "missing") and
    [__record_separator]. *)
Theorem record_passes_through_with_markers session config limit q rows i text d :
  custom_except_query config = Some q → q ≠ "" →
  sql_record_json session
    (nl +:+ "            WITH missing_records AS (" +:+ nl +:+
     "                " +:+ q +:+ nl +:+
     "                LIMIT " +:+ pretty limit +:+ nl +:+
     "            )" +:+ nl +:+
     "            SELECT " +:+ nl +:+
     "                TO_JSON(OBJECT_CONSTRUCT(*)) AS RECORD_JSON" +:+ nl +:+
     "            FROM missing_records" +:+ nl +:+
     "            ") = Return rows →
  Forall (λ row,
            truthy row = false
            ∨ ∃ t, row = Some t
                   ∧ ((∃ e, json_loads t = Raise e ∧ exn_kind e = JSONDecodeError)
                      ∨ ∃ dj, json_loads t = Return (JDict dj))) rows →
  rows !! i = Some (Some text) → text ≠ "" →
  json_loads text = Return (JDict d) →
  ∃ n out stored,
    extract_missing_records json_loads session config limit = Return (n, out)
    ∧ out !! i = Some (JDict stored)
    ∧ (∀ k, k ≠ "__metadata" → k ≠ "__record_separator" →
         dict_get k stored = dict_get k d)
    ∧ dict_get "__metadata" stored
        = Some (JDict
            [ ("source_table", JStr (default "UNKNOWN_SOURCE" (source_table config)));
              ("hub_table", JStr (default "UNKNOWN_HUB" (hub_table config)));
              ("satellite_table",
               JStr (default "UNKNOWN_SATELLITE" (cur_satellite_table config)));
              ("bizview_table", JStr (default "UNKNOWN_BIZVIEW" (bizview_table config)));
              ("record_type", JStr "missing") ])
    ∧ dict_get "__record_separator" stored = Some (JBool true).
Proof.
  intros Hq Hne Hrows Hall Hi Htext Hd.
  destruct (for_each_tolerant json_loads (source_or_unknown config) (hub_or_unknown config)
              (satellite_or_unknown config) (bizview_or_unknown config) rows Hall)
    as (recs & Hrecs & Hstored).
  specialize (Hstored i text d Hi Htext Hd).
  eexists _, _, _. split; [apply (extract_with_query json_loads _ _ _ q Hq Hne)|].
  unfold collect_missing_records, mbind, result_bind, rbind.
  fold (json_query q limit) in Hrows. rewrite Hrows, Hrecs.
  split.
  { destruct (limit <? _); [|exact Hstored].
    rewrite lookup_app_l; [exact Hstored|]. eapply lookup_lt_Some, Hstored. }
  split; [|split].
  - intros k Hk1 Hk2. now rewrite !dict_get_set_ne by congruence.
  - rewrite dict_get_set_ne by discriminate. apply dict_get_set_eq.
  - apply dict_get_set_eq.
Qed.

End ExtractionClaims.

Section MainLoop.

Variable json_loads : string → result json.
Variable json_dumps : json → string.

Implicit Types (session : Session) (config : config) (st : main_state).

Lemma extract_returns session config limit :
  ∃ p, extract_missing_records json_loads session config limit = Return p.
Proof.
  destruct (truthy (custom_except_query config)) eqn:Ht.
  - destruct (truthy_inv _ Ht) as (q & Hq & Hne).
    eexists. apply (extract_with_query json_loads _ _ _ q Hq Hne).
  - eexists. now apply extract_no_query.
Qed.

Lemma count_source_returns session source :
  ∃ n, count_source_records session source = Return n.
Proof.
  unfold count_source_records, try_except.
  destruct (sql_scalar _ _); eauto.
Qed.

Lemma count_non_deleted_returns session config source_count :
  ∃ p, count_non_deleted_records session config source_count = Return p.
Proof.
  unfold count_non_deleted_records, try_except, mbind, result_bind, rbind.
  destruct (deleted_column config); [|eauto].
  destruct (sql_scalar _ _); eauto.
Qed.

(** One turn of the loop: it never takes the [continue] handler, stores one
    entry and appends one tuple. *)
Lemma process_config_run session config st :
  ∃ row entry,
    summarises json_loads json_dumps session config row entry
    ∧ process_config json_loads json_dumps session config st =
        ({| results := results st ++ [row];
            lost_records :=
              dict_set (last_segment (default "" (source_table config))) entry
                       (lost_records st) |},
         Return tt).
Proof.
  destruct (count_source_returns session (source_table config)) as [sc Hsc].
  destruct (count_non_deleted_returns session config sc) as [[nd dc] Hnd].
  destruct (extract_returns session config default_limit) as [[loss recs] Hex].
  eexists _, _. split.
  - exists sc, nd, dc, loss, recs. repeat (split; [eassumption || reflexivity|]).
    reflexivity.
  - unfold process_config, try_except_M, mbind, M_bind, lift.
    rewrite Hsc, Hnd, Hex. simpl.
    unfold get_lost_records, lookup_lost_records. simpl.
    rewrite dict_get_set_eq. reflexivity.
Qed.

Lemma for_configs_run session configs st :
  ∃ rows st',
    for_configs (process_config json_loads json_dumps session) configs st = (st', Return tt)
    ∧ results st' = results st ++ rows
    ∧ Forall2 (λ config row, ∃ entry, summarises json_loads json_dumps session config row entry)
              configs rows
    ∧ (∀ k, is_Some (dict_get k (lost_records st)) → is_Some (dict_get k (lost_records st')))
    ∧ Forall (λ row, ∃ k, row !! 0%nat = Some (VStr k)
                          ∧ is_Some (dict_get k (lost_records st'))) rows.
Proof.
  revert st. induction configs as [|config configs IH]; intros st.
  - exists [], st. simpl. rewrite app_nil_r. repeat split; auto; constructor.
  - destruct (process_config_run session config st) as (row & entry & Hsum & Hrun).
    simpl. unfold mbind, M_bind. rewrite Hrun.
    match goal with |- context [for_configs _ _ ?s] => destruct (IH s) as (rows & st' & Hloop & Hres & Hall & Hkeep & Hkeys) end.
    exists (row :: rows), st'. rewrite Hloop. simpl in Hres, Hkeep.
    split; [reflexivity|]. split; [now rewrite Hres, <- app_assoc|].
    split; [constructor; eauto|].
    split.
    + intros k Hk. apply Hkeep.
      destruct (decide (k = last_segment (default "" (source_table config)))) as [->|Hne].
      * rewrite dict_get_set_eq. eauto.
      * now rewrite dict_get_set_ne.
    + constructor; [|exact Hkeys].
      destruct Hsum as (? & ? & ? & ? & ? & _ & _ & _ & _ & ->).
      eexists. split; [reflexivity|]. apply Hkeep. rewrite dict_get_set_eq. eauto.
Qed.

(** The tuples of the loop, one per configuration and in their order. *)
Lemma main_loop_rows session configs :
  Forall2 (λ config row, ∃ entry, summarises json_loads json_dumps session config row entry)
          configs (results (main_loop json_loads json_dumps session configs)).
Proof.
  unfold main_loop.
  destruct (for_configs_run session configs init_state)
    as (rows & st' & Hloop & Hres & Hall & _).
  rewrite Hloop. simpl. now rewrite Hres.
Qed.

(** The summary loop finds every table name it looks up. *)
Lemma summary_loop_returns session configs :
  ∃ sizes,
    for_each (summary_sample_size (main_loop json_loads json_dumps session configs))
             (results (main_loop json_loads json_dumps session configs)) = Return sizes.
Proof.
  unfold main_loop.
  destruct (for_configs_run session configs init_state)
    as (rows & st' & Hloop & Hres & Hall & _ & Hkeys).
  rewrite Hloop. simpl. rewrite Hres. simpl.
  assert (Forall (λ row, ∃ n, summary_sample_size st' row = Return n) rows) as Hsz.
  { assert (Forall (λ row, ∃ config entry,
              summarises json_loads json_dumps session config row entry) rows) as Hrows.
    { eapply Forall2_Forall_r; [exact Hall|].
      apply Forall_true. intros config row [entry H]. eauto. }
    rewrite Forall_forall in Hkeys, Hrows. apply Forall_forall. intros row Hin.
    destruct (Hkeys row Hin) as (k & Hk & [e He]).
    destruct (Hrows row Hin) as (config & entry & Hsum).
    destruct Hsum as (? & ? & ? & ? & ? & _ & _ & _ & _ & ->).
    simpl in Hk. injection Hk as <-.
    unfold summary_sample_size, tuple_index, mbind, result_bind, rbind. simpl.
    unfold lookup_lost_records. rewrite He. eauto. }
  clear - Hsz. induction Hsz as [|row rows [n Hn] _ [sizes IH]]; simpl.
  - eauto.
  - rewrite Hn. unfold mbind, result_bind, rbind. rewrite IH. eauto.
Qed.

(** [main] returns the tuples of the loop when the DataFrame can be built. *)
Lemma main_with_built session configs :
  create_dataframe_error session (results (main_loop json_loads json_dumps session configs))
                         result_schema = None →
  main_with json_loads json_dumps configs session =
    Return {| df_schema := result_schema;
              df_rows := results (main_loop json_loads json_dumps session configs) |}.
Proof.
  intros Hok. unfold main_with, create_dataframe. rewrite Hok.
  destruct (summary_loop_returns session configs) as [sizes Hs].
  unfold try_except, mbind, result_bind, rbind. now rewrite Hs.
Qed.

(** Otherwise it returns what building an empty DataFrame returns. *)
Lemma main_with_fallback session configs e :
  create_dataframe_error session (results (main_loop json_loads json_dumps session configs))
                         result_schema = Some e →
  main_with json_loads json_dumps configs session =
    create_dataframe session [] result_schema.
Proof.
  intros Herr. unfold main_with, create_dataframe at 1. rewrite Herr. reflexivity.
Qed.

Lemma main_with_Return session configs df :
  main_with json_loads json_dumps configs session = Return df →
  df_schema df = result_schema
  ∧ (df_rows df = results (main_loop json_loads json_dumps session configs)
     ∨ df_rows df = []).
Proof.
  destruct (create_dataframe_error session
              (results (main_loop json_loads json_dumps session configs)) result_schema)
    as [e|] eqn:Hdf.
  - rewrite (main_with_fallback _ _ e Hdf). unfold create_dataframe.
    destruct (create_dataframe_error session [] result_schema); [discriminate|].
    intros [= <-]. auto.
  - rewrite (main_with_built _ _ Hdf). intros [= <-]. auto.
Qed.

End MainLoop.

Section Frame.

Variable json_loads : string → result json.
Variable json_dumps : json → string.

Implicit Types (session : Session) (config : config).

Lemma extract_agree session1 session2 config :
  agree_on_issued session1 session2 config →
  extract_missing_records json_loads session1 config default_limit
    = extract_missing_records json_loads session2 config default_limit.
Proof.
  intros (_ & _ & Hq).
  destruct (truthy (custom_except_query config)) eqn:Ht.
  - destruct (truthy_inv _ Ht) as (q & Hcq & Hne).
    destruct (Hq q Hcq) as [Hcount Hjson].
    rewrite !(extract_with_query json_loads _ _ _ q Hcq Hne).
    unfold reported_count, collect_missing_records. now rewrite Hcount, Hjson.
  - now rewrite !extract_no_query.
Qed.

Lemma process_config_agree session1 session2 config st :
  agree_on_issued session1 session2 config →
  process_config json_loads json_dumps session1 config st
    = process_config json_loads json_dumps session2 config st.
Proof.
  intros Hagree. pose proof (extract_agree _ _ _ Hagree) as Hex.
  destruct Hagree as (Hsrc & Hdel & _).
  unfold process_config, count_source_records, count_non_deleted_records.
  rewrite Hex, Hsrc.
  destruct (deleted_column config) as [col|]; [|reflexivity].
  now rewrite (Hdel col eq_refl).
Qed.

Lemma for_configs_agree session1 session2 configs st :
  Forall (agree_on_issued session1 session2) configs →
  for_configs (process_config json_loads json_dumps session1) configs st
    = for_configs (process_config json_loads json_dumps session2) configs st.
Proof.
  intros Hall. revert st.
  induction Hall as [|config configs Hc _ IH]; intros st; simpl; [reflexivity|].
  unfold mbind, M_bind. rewrite (process_config_agree _ _ _ _ Hc).
  destruct (process_config _ _ session2 config st) as [st' [[]|e]]; [apply IH | reflexivity].
Qed.

End Frame.

(** Open a [summarises] fact into its counts and its tuple. *)
Ltac open_summary H :=
  destruct H as (?source_count & ?non_deleted & ?deleted_count & ?loss & ?recs
                 & ?Hsrc & ?Hnd & ?Hex & ?Hentry & ->).

Section MainClaims.

Variable json_loads : string → result json.
Variable json_dumps : json → string.

Implicit Types (session : Session) (config : config).

(** C1, in the form the code satisfies.
    No query counts the hub, link, satellite or business-view
    tables: the tuples depend only on the answers to the four queries issued
    per configuration (source count, non-deleted count, EXCEPT count, JSON
    sample).  HUB_COUNT is derived as SOURCE_COUNT minus SOURCE_TO_HUB_LOSS,
    and LINK_COUNT, CURRENT_SATELLITE_COUNT and BIZVIEW_COUNT repeat it. *)
Theorem layer_counts_are_derived configs session1 session2 :
  (∀ config, config ∈ configs → agree_on_issued session1 session2 config) →
  results (main_loop json_loads json_dumps session1 configs)
    = results (main_loop json_loads json_dumps session2 configs)
  ∧ Forall (λ row, ∃ source_count loss,
              field result_schema "SOURCE_COUNT" row = Some (VLong source_count)
              ∧ field result_schema "SOURCE_TO_HUB_LOSS" row = Some (VLong loss)
              ∧ field result_schema "HUB_COUNT" row = Some (VLong (source_count - loss))
              ∧ field result_schema "LINK_COUNT" row = Some (VLong (source_count - loss))
              ∧ field result_schema "CURRENT_SATELLITE_COUNT" row
                  = Some (VLong (source_count - loss))
              ∧ field result_schema "BIZVIEW_COUNT" row
                  = Some (VLong (source_count - loss)))
           (results (main_loop json_loads json_dumps session1 configs)).
Proof.
  intros Hagree. split.
  - unfold main_loop. f_equal. f_equal.
    apply for_configs_agree, Forall_forall, Hagree.
  - eapply Forall2_Forall_r; [apply main_loop_rows|].
    apply Forall_true. intros config row [entry Hsum]. open_summary Hsum.
    exists non_deleted, loss. repeat split; reflexivity.
Qed.

(** C2.  For a configuration with a custom EXCEPT query, SOURCE_TO_HUB_LOSS of
    its summary row is the first component of what [extract_missing_records]
    returns: the count that the query [SELECT COUNT( * ) FROM (<EXCEPT query>)]
    returned (0 when that query raised). *)
Theorem source_to_hub_loss_is_except_count configs session i config q :
  configs !! i = Some config →
  custom_except_query config = Some q → q ≠ "" →
  ∃ row loss recs,
    results (main_loop json_loads json_dumps session configs) !! i = Some row
    ∧ extract_missing_records json_loads session config 10 = Return (loss, recs)
    ∧ field result_schema "SOURCE_TO_HUB_LOSS" row = Some (VLong loss)
    ∧ (∀ m, sql_scalar session ("SELECT COUNT(*) FROM (" +:+ q +:+ ")") = Return m →
         loss = m)
    ∧ (∀ e, sql_scalar session ("SELECT COUNT(*) FROM (" +:+ q +:+ ")") = Raise e →
         loss = 0)
    ∧ (create_dataframe_error session
         (results (main_loop json_loads json_dumps session configs)) result_schema = None →
       ∃ df, main_with json_loads json_dumps configs session = Return df
             ∧ df_rows df !! i = Some row).
Proof.
  intros Hi Hq Hne.
  pose proof (main_loop_rows json_loads json_dumps session configs) as Hrows.
  destruct (Forall2_lookup_l _ _ _ _ _ Hrows Hi) as (row & Hrow & entry & Hsum).
  open_summary Hsum.
  eexists _, loss, recs. split; [exact Hrow|]. split; [exact Hex|].
  split; [reflexivity|].
  rewrite (extract_with_query json_loads _ _ _ q Hq Hne) in Hex.
  injection Hex as <- _. unfold reported_count, count_query.
  split; [|split].
  - intros m ->. reflexivity.
  - intros e ->. reflexivity.
  - intros Hok. eexists. split; [apply main_with_built, Hok|]. exact Hrow.
Qed.

(** C3, in the form the code satisfies.
    For every entry of [table_configs] the loop appends exactly one summary
    row, for that entry's table; [main] returns exactly these rows whenever
    building the DataFrame from them succeeds.  When that build raises,
    [main] hands back what building the empty DataFrame gives: a DataFrame
    without rows when that second build succeeds, its exception when it
    raises too. *)
Theorem one_row_per_config session :
  Forall2 (λ config row,
             field result_schema "TABLE_NAME" row
               = Some (VStr (last_segment (default "" (source_table config))))
             ∧ field result_schema "SOURCE_TABLE" row
                 = Some (of_opt_str (source_table config)))
          table_configs (results (main_loop json_loads json_dumps session table_configs))
  ∧ length (results (main_loop json_loads json_dumps session table_configs))
      = length table_configs
  ∧ (create_dataframe_error session
       (results (main_loop json_loads json_dumps session table_configs)) result_schema
       = None →
     main json_loads json_dumps session =
       Return {| df_schema := result_schema;
                 df_rows := results (main_loop json_loads json_dumps session table_configs) |})
  ∧ (∀ e, create_dataframe_error session
            (results (main_loop json_loads json_dumps session table_configs))
            result_schema = Some e →
       (create_dataframe_error session [] result_schema = None →
        main json_loads json_dumps session
          = Return {| df_schema := result_schema; df_rows := [] |})
       ∧ (∀ e', create_dataframe_error session [] result_schema = Some e' →
          main json_loads json_dumps session = Raise e')).
Proof.
  pose proof (main_loop_rows json_loads json_dumps session table_configs) as Hrows.
  split; [|split; [|split]].
  - eapply Forall2_impl; [exact Hrows|].
    intros config row [entry Hsum]. open_summary Hsum. split; reflexivity.
  - symmetry. eapply Forall2_length, Hrows.
  - apply main_with_built.
  - intros e He. unfold main.
    rewrite (main_with_fallback json_loads json_dumps _ _ e He).
    unfold create_dataframe.
    split; [intros ->; reflexivity | intros e' ->; reflexivity].
Qed.

(** C6.  In every summary row [main] returns, the four downstream losses are
    0, TOTAL_ROWS_LOST is SOURCE_TO_HUB_LOSS, the four layer counts are
    SOURCE_COUNT minus SOURCE_TO_HUB_LOSS, and SOURCE_COUNT is the non-deleted
    count the loop obtained for the row's configuration. *)
Theorem summary_row_invariants session df row :
  main json_loads json_dumps session = Return df →
  row ∈ df_rows df →
  ∃ source_count loss,
    field result_schema "SOURCE_COUNT" row = Some (VLong source_count)
    ∧ field result_schema "SOURCE_TO_HUB_LOSS" row = Some (VLong loss)
    ∧ field result_schema "HUB_TO_LINK_LOSS" row = Some (VLong 0)
    ∧ field result_schema "HUB_TO_SAT_LOSS" row = Some (VLong 0)
    ∧ field result_schema "LINK_TO_SAT_LOSS" row = Some (VLong 0)
    ∧ field result_schema "SAT_TO_BIZVIEW_LOSS" row = Some (VLong 0)
    ∧ field result_schema "TOTAL_ROWS_LOST" row = Some (VLong loss)
    ∧ field result_schema "HUB_COUNT" row = Some (VLong (source_count - loss))
    ∧ field result_schema "LINK_COUNT" row = Some (VLong (source_count - loss))
    ∧ field result_schema "CURRENT_SATELLITE_COUNT" row = Some (VLong (source_count - loss))
    ∧ field result_schema "BIZVIEW_COUNT" row = Some (VLong (source_count - loss))
    ∧ ∃ config total deleted_count,
        config ∈ table_configs
        ∧ count_source_records session (source_table config) = Return total
        ∧ count_non_deleted_records session config total
            = Return (source_count, deleted_count)
        ∧ (∀ col n, deleted_column config = Some col →
             sql_scalar session (non_deleted_query (source_table config) col) = Return n →
             source_count = n).
Proof.
  intros Hmain Hin.
  destruct (main_with_Return json_loads json_dumps _ _ _ Hmain) as [_ [Hrows|Hrows]];
    rewrite Hrows in Hin; [|now apply elem_of_nil in Hin].
  pose proof (main_loop_rows json_loads json_dumps session table_configs) as Hall.
  apply list_elem_of_lookup in Hin as [i Hi].
  destruct (Forall2_lookup_r _ _ _ _ _ Hall Hi) as (config & Hc & entry & Hsum).
  open_summary Hsum.
  exists non_deleted, loss.
  do 6 (split; [reflexivity|]).
  split; [simpl; do 2 f_equal; lia|].
  do 4 (split; [reflexivity|]).
  exists config, source_count, deleted_count.
  split; [eapply list_elem_of_lookup_2, Hc|].
  split; [exact Hsrc|]. split; [exact Hnd|].
  intros col n Hcol Hn. unfold count_non_deleted_records in Hnd.
  rewrite Hcol, Hn in Hnd. simpl in Hnd. now injection Hnd as <- _.
Qed.

(** C8.  The rows [main] returns follow the order of the configuration list:
    they describe, one by one and in order, a sublist of the configurations
    (all of them, unless the returned DataFrame is the empty fallback), so no
    row comes from a configuration outside the list. *)
Theorem rows_follow_config_order configs session df :
  main_with json_loads json_dumps configs session = Return df →
  ∃ kept,
    sublist kept configs
    ∧ (df_rows df ≠ [] → kept = configs)
    ∧ Forall2 (λ config row,
                 field result_schema "TABLE_NAME" row
                   = Some (VStr (last_segment (default "" (source_table config))))
                 ∧ field result_schema "SOURCE_TABLE" row
                     = Some (of_opt_str (source_table config))
                 ∧ field result_schema "HUB_TABLE" row
                     = Some (VStr (default "" (hub_table config)))
                 ∧ field result_schema "SATELLITE_TABLE" row
                     = Some (VStr (default "" (cur_satellite_table config)))
                 ∧ field result_schema "BIZVIEW_TABLE" row
                     = Some (VStr (default "" (bizview_table config))))
              kept (df_rows df).
Proof.
  intros Hmain.
  destruct (main_with_Return json_loads json_dumps _ _ _ Hmain) as [_ [Hrows|Hrows]];
    rewrite Hrows.
  - exists configs. split; [reflexivity|]. split; [reflexivity|].
    eapply Forall2_impl; [apply main_loop_rows|].
    intros config row [entry Hsum]. open_summary Hsum. repeat split; reflexivity.
  - exists []. split; [apply sublist_nil_l|]. split; [congruence | constructor].
Qed.

(** C9, in the form the code satisfies.
    Every tuple of the loop has the 18 fields of
    [result_schema], TABLE_NAME through LOST_RECORDS_DETAILS, each of its
    column's type, and a DataFrame [main] returns has that schema.  When
    building the DataFrame from the tuples raises, [main] returns what
    building the empty DataFrame with the same schema returns: that empty
    DataFrame when the second call succeeds. *)
Theorem rows_fit_result_schema session :
  map field_name result_schema =
    [ "TABLE_NAME"; "SOURCE_TABLE"; "HUB_TABLE"; "SATELLITE_TABLE"; "BIZVIEW_TABLE";
      "SOURCE_COUNT"; "HUB_COUNT"; "LINK_COUNT"; "CURRENT_SATELLITE_COUNT";
      "BIZVIEW_COUNT"; "SOURCE_TO_HUB_LOSS"; "HUB_TO_LINK_LOSS"; "HUB_TO_SAT_LOSS";
      "LINK_TO_SAT_LOSS"; "SAT_TO_BIZVIEW_LOSS"; "TOTAL_ROWS_LOST"; "DELETED_RECORDS";
      "LOST_RECORDS_DETAILS" ]
  ∧ Forall (λ row, length row = 18%nat ∧ conforms result_schema row)
           (results (main_loop json_loads json_dumps session table_configs))
  ∧ (∀ df, main json_loads json_dumps session = Return df →
       df_schema df = result_schema
       ∧ Forall (λ row, length row = 18%nat ∧ conforms result_schema row) (df_rows df))
  ∧ (∀ e, create_dataframe_error session
            (results (main_loop json_loads json_dumps session table_configs))
            result_schema = Some e →
       main json_loads json_dumps session = create_dataframe session [] result_schema
       ∧ (create_dataframe_error session [] result_schema = None →
          main json_loads json_dumps session
            = Return {| df_schema := result_schema; df_rows := [] |})).
Proof.
  assert (Forall (λ row, length row = 18%nat ∧ conforms result_schema row)
            (results (main_loop json_loads json_dumps session table_configs))) as Hfit.
  { eapply Forall2_Forall_r; [apply main_loop_rows|].
    apply Forall_true. intros config row [entry Hsum]. open_summary Hsum.
    split; [reflexivity|].
    unfold conforms, result_schema.
    repeat (constructor; [try reflexivity|]); [|constructor].
    now destruct (source_table config). }
  split; [reflexivity|]. split; [exact Hfit|]. split.
  - intros df Hmain.
    destruct (main_with_Return json_loads json_dumps _ _ _ Hmain) as [Hs [Hrows|Hrows]];
      rewrite Hrows; split; auto; constructor.
  - intros e He. split.
    + apply (main_with_fallback json_loads json_dumps _ _ e He).
    + intros Hok. unfold main.
      rewrite (main_with_fallback json_loads json_dumps _ _ e He).
      unfold create_dataframe. now rewrite Hok.
Qed.

End MainClaims.

(* ================================================================= *)
(** ** The claims at concrete inputs *)

Lemma entity_query_nonempty : entity_except_query ≠ "".
Proof. vm_compute. discriminate. Qed.

(** C1 at [entity_session] and [bare_session]: they differ only on the layer
    tables, and give the same tuples. *)
Lemma layer_counts_are_derived_witness :
  results (main_loop loads_table dumps_indent4 entity_session table_configs)
    = results (main_loop loads_table dumps_indent4 bare_session table_configs)
  ∧ count_rows entity_session "DV_DB.RAWVAULT.H_ENTITY" = Return 12
  ∧ count_rows bare_session "DV_DB.RAWVAULT.H_ENTITY" = Raise sql_error.
Proof.
  split; [|split; reflexivity].
  apply (layer_counts_are_derived loads_table dumps_indent4 table_configs
           entity_session bare_session).
  intros config Hin. apply list_elem_of_singleton in Hin. subst config.
  split; [reflexivity|]. split.
  - intros col [= <-]. reflexivity.
  - intros q [= <-]. split; reflexivity.
Defined.

(** C1, counterexample.  The warehouse of [entity_session] holds 12 hub rows,
    12 current-satellite rows and 11 business-view rows; the summary row
    reports 9 for each layer. *)
Lemma layer_counts_not_counted :
  ∃ row,
    main loads_table dumps_indent4 entity_session
      = Return {| df_schema := result_schema; df_rows := [row] |}
    ∧ field result_schema "HUB_COUNT" row = Some (VLong 9)
    ∧ count_rows entity_session "DV_DB.RAWVAULT.H_ENTITY" = Return 12
    ∧ field result_schema "CURRENT_SATELLITE_COUNT" row = Some (VLong 9)
    ∧ count_rows entity_session "DV_DB.RAWVAULT.S_ENTITY_LROC_INFO_CURRENT" = Return 12
    ∧ field result_schema "BIZVIEW_COUNT" row = Some (VLong 9)
    ∧ count_rows entity_session "DV_DB.BIZVIEWS.FACT_ENTITY" = Return 11.
Proof.
  eexists. split; [vm_compute; reflexivity|].
  repeat split; vm_compute; reflexivity.
Qed.

(** C2 at [sampling_session]: the COUNT query over the EXCEPT query answers
    25. *)
Lemma source_to_hub_loss_witness :
  sql_scalar sampling_session ("SELECT COUNT(*) FROM (" +:+ entity_except_query +:+ ")")
    = Return 25
  ∧ ∃ row recs,
      results (main_loop loads_table dumps_indent4 sampling_session table_configs) !! 0%nat
        = Some row
      ∧ extract_missing_records loads_table sampling_session entity_config 10
          = Return (25, recs)
      ∧ field result_schema "SOURCE_TO_HUB_LOSS" row = Some (VLong 25).
Proof.
  split; [reflexivity|].
  destruct (source_to_hub_loss_is_except_count loads_table dumps_indent4 table_configs
              sampling_session 0 entity_config entity_except_query
              eq_refl eq_refl entity_query_nonempty)
    as (row & loss & recs & Hrow & Hex & Hloss & Hcount & _).
  rewrite (Hcount 25 eq_refl) in Hex, Hloss.
  exists row, recs. auto.
Defined.

(** C3, counterexample.  [table_configs] has one entry, and [main] returns no
    row for it when the session refuses to build the DataFrame from the
    tuples. *)
Lemma no_row_when_frame_is_refused :
  length table_configs = 1%nat
  ∧ main loads_table dumps_indent4 rejecting_session
      = Return {| df_schema := result_schema; df_rows := [] |}.
Proof. split; [reflexivity | vm_compute; reflexivity]. Qed.

(** C3 at [entity_session], whose DataFrame can be built, and at
    [rejecting_session], where only the empty one can. *)
Lemma one_row_per_config_witness :
  (∃ row,
     results (main_loop loads_table dumps_indent4 entity_session table_configs) = [row]
     ∧ main loads_table dumps_indent4 entity_session
         = Return {| df_schema := result_schema; df_rows := [row] |})
  ∧ main loads_table dumps_indent4 rejecting_session
      = Return {| df_schema := result_schema; df_rows := [] |}.
Proof.
  split.
  - destruct (one_row_per_config loads_table dumps_indent4 entity_session)
      as (_ & Hlen & Hmain & _).
    destruct (results (main_loop loads_table dumps_indent4 entity_session table_configs))
      as [|row [|row' rows]] eqn:Hrows; try discriminate Hlen.
    exists row. split; [reflexivity|]. apply Hmain. reflexivity.
  - destruct (one_row_per_config loads_table dumps_indent4 rejecting_session)
      as (_ & _ & _ & Hfallback).
    destruct (Hfallback frame_error) as [Hempty _]; [vm_compute; reflexivity|].
    apply Hempty. reflexivity.
Defined.

(** C4, counterexample.  The warehouse returns the record [{"ID": 7}]; the
    stored dictionary has two more keys.  And when the next collected row is
    the text of a JSON list, that record is not stored at all. *)
Lemma stored_record_has_added_keys :
  sql_record_json entity_session entity_json_sample = Return [Some id7_text]
  ∧ loads_table id7_text = Return (JDict [("ID", JInt 7)])
  ∧ extract_missing_records loads_table entity_session entity_config 10
      = Return (1, [JDict [ ("ID", JInt 7);
                            ("__metadata",
                             JDict [ ("source_table",
                                      JStr "SOURCE_DB.SOURCE_SCHEMA.ENTITY_TABLE");
                                     ("hub_table", JStr "DV_DB.RAWVAULT.H_ENTITY");
                                     ("satellite_table",
                                      JStr "DV_DB.RAWVAULT.S_ENTITY_LROC_INFO_CURRENT");
                                     ("bizview_table", JStr "DV_DB.BIZVIEWS.FACT_ENTITY");
                                     ("record_type", JStr "missing") ]);
                            ("__record_separator", JBool true) ]])
  ∧ JDict [ ("ID", JInt 7);
            ("__metadata",
             JDict [ ("source_table", JStr "SOURCE_DB.SOURCE_SCHEMA.ENTITY_TABLE");
                     ("hub_table", JStr "DV_DB.RAWVAULT.H_ENTITY");
                     ("satellite_table", JStr "DV_DB.RAWVAULT.S_ENTITY_LROC_INFO_CURRENT");
                     ("bizview_table", JStr "DV_DB.BIZVIEWS.FACT_ENTITY");
                     ("record_type", JStr "missing") ]);
            ("__record_separator", JBool true) ]
      ≠ JDict [("ID", JInt 7)]
  ∧ sql_record_json list_row_session entity_json_sample
      = Return [Some id7_text; Some "[]"]
  ∧ extract_missing_records loads_table list_row_session entity_config 10
      = Return (2, [JDict [ ("error",
                             JStr ("JSON processing error: "
                                   +:+ "list indices must be integers or slices, not str"));
                            ("__metadata",
                             JDict [ ("source_table",
                                      JStr "SOURCE_DB.SOURCE_SCHEMA.ENTITY_TABLE");
                                     ("hub_table", JStr "DV_DB.RAWVAULT.H_ENTITY");
                                     ("satellite_table",
                                      JStr "DV_DB.RAWVAULT.S_ENTITY_LROC_INFO_CURRENT");
                                     ("bizview_table",
                                      JStr "DV_DB.BIZVIEWS.FACT_ENTITY") ]) ]]).
Proof.
  split; [reflexivity|]. split; [reflexivity|]. split; [vm_compute; reflexivity|].
  split; [discriminate|]. split; [reflexivity | vm_compute; reflexivity].
Qed.

(** C4 at [mixed_session]: a NULL row and an undecodable one come first, and
    the record, third, keeps its [ID] and gains the markers. *)
Lemma record_passes_through_witness :
  sql_record_json mixed_session entity_json_sample
    = Return [None; Some "oops"; Some id7_text]
  ∧ ∃ n out stored,
      extract_missing_records loads_table mixed_session entity_config 10 = Return (n, out)
      ∧ out !! 2%nat = Some (JDict stored)
      ∧ dict_get "ID" stored = Some (JInt 7)
      ∧ dict_get "__metadata" stored
          = Some (JDict [ ("source_table", JStr "SOURCE_DB.SOURCE_SCHEMA.ENTITY_TABLE");
                          ("hub_table", JStr "DV_DB.RAWVAULT.H_ENTITY");
                          ("satellite_table",
                           JStr "DV_DB.RAWVAULT.S_ENTITY_LROC_INFO_CURRENT");
                          ("bizview_table", JStr "DV_DB.BIZVIEWS.FACT_ENTITY");
                          ("record_type", JStr "missing") ])
      ∧ dict_get "__record_separator" stored = Some (JBool true).
Proof.
  split; [reflexivity|].
  destruct (record_passes_through_with_markers loads_table mixed_session entity_config 10
              entity_except_query [None; Some "oops"; Some id7_text] 2 id7_text
              [("ID", JInt 7)])
    as (n & out & stored & Hex & Hout & Hkeep & Hmeta & Hsep).
  - reflexivity.
  - exact entity_query_nonempty.
  - reflexivity.
  - constructor; [left; reflexivity|].
    constructor.
    { right. exists "oops". split; [reflexivity|]. left. eexists. split; reflexivity. }
    constructor; [|constructor].
    right. exists id7_text. split; [reflexivity|]. right. eexists. reflexivity.
  - reflexivity.
  - vm_compute. discriminate.
  - reflexivity.
  - exists n, out, stored. repeat split; try assumption.
    rewrite Hkeep by discriminate. reflexivity.
Defined.

(** C5 at [sampling_session]: 25 rows are missing, 10 are collected. *)
Lemma sample_bounded_witness :
  ∃ n out,
    extract_missing_records loads_table sampling_session entity_config 10 = Return (n, out)
    ∧ n = 25
    ∧ Z.of_nat (length (List.filter is_sample_entry out)) ≤ 10.
Proof.
  eexists _, _. split; [vm_compute; reflexivity|]. split; [reflexivity|].
  eapply (sample_bounded_by_limit loads_table sampling_session entity_config 10).
  - lia.
  - intros q rows [= <-] Hrows. vm_compute in Hrows. injection Hrows as <-.
    simpl. lia.
  - vm_compute. reflexivity.
Defined.

(** C7, counterexample.  The count query fails and the list carries no error
    dictionary; two rows fail to decode and the list carries two. *)
Lemma failures_without_single_error_entry :
  sql_scalar count_down_session ("SELECT COUNT(*) FROM (" +:+ entity_except_query +:+ ")")
    = Raise sql_error
  ∧ (∃ out,
       extract_missing_records loads_table count_down_session entity_config 10
         = Return (0, out)
       ∧ length out = 1%nat
       ∧ List.filter is_error_entry out = [])
  ∧ sql_record_json garbled_session entity_json_sample
      = Return [Some "oops"; Some "oops"]
  ∧ (∃ out,
       extract_missing_records loads_table garbled_session entity_config 10
         = Return (2, out)
       ∧ length (List.filter is_error_entry out) = 2%nat).
Proof.
  split; [reflexivity|]. split; [|split; [reflexivity|]].
  - eexists. split; [vm_compute; reflexivity|]. split; reflexivity.
  - eexists. split; [vm_compute; reflexivity|]. reflexivity.
Qed.

(** C7 at a failing JSON query, at a configuration without EXCEPT query, at
    a failing count query, and at a NULL row followed by an undecodable
    one. *)
Lemma extract_total_witness :
  extract_missing_records loads_table json_down_session entity_config 10
    = Return (1, [JDict [ ("error", JStr "JSON processing error: SQL compilation error");
                          ("__metadata",
                           JDict [ ("source_table",
                                    JStr "SOURCE_DB.SOURCE_SCHEMA.ENTITY_TABLE");
                                   ("hub_table", JStr "DV_DB.RAWVAULT.H_ENTITY");
                                   ("satellite_table",
                                    JStr "DV_DB.RAWVAULT.S_ENTITY_LROC_INFO_CURRENT");
                                   ("bizview_table",
                                    JStr "DV_DB.BIZVIEWS.FACT_ENTITY") ]) ]])
  ∧ extract_missing_records loads_table entity_session order_config 10 = Return (0, [])
  ∧ (∃ out,
       extract_missing_records loads_table count_down_session entity_config 10
         = Return (0, out))
  ∧ (∃ out x0 x1 x2,
       extract_missing_records loads_table mixed_session entity_config 10
         = Return (3, out)
       ∧ out = [x0; x1; x2]
       ∧ dict_get "error" (match x0 with JDict d => d | _ => [] end)
           = Some (JStr "Empty JSON result")
       ∧ dict_get "error" (match x1 with JDict d => d | _ => [] end)
           = Some (JStr "Failed to parse JSON: Expecting value: line 1 column 1 (char 0)")).
Proof.
  split; [|split; [|split]].
  - destruct (extract_missing_records_total loads_table json_down_session entity_config 10)
      as (n & out & Hex & _ & _ & Hq).
    destruct (Hq entity_except_query _ _ eq_refl entity_query_nonempty eq_refl eq_refl)
      as (Hn & Hfail & _).
    rewrite (Hfail sql_error eq_refl) in Hex. simpl in Hn. rewrite Hn in Hex.
    exact Hex.
  - destruct (extract_missing_records_total loads_table entity_session order_config 10)
      as (n & out & Hex & _ & Hnone & _).
    destruct (Hnone eq_refl) as [-> ->]. exact Hex.
  - destruct (extract_missing_records_total loads_table count_down_session entity_config 10)
      as (n & out & Hex & _ & _ & Hq).
    destruct (Hq entity_except_query _ _ eq_refl entity_query_nonempty eq_refl eq_refl)
      as (Hn & _).
    simpl in Hn. rewrite Hn in Hex. eauto.
  - destruct (extract_missing_records_total loads_table mixed_session entity_config 10)
      as (n & out & Hex & _ & _ & Hq).
    destruct (Hq entity_except_query _ _ eq_refl entity_query_nonempty eq_refl eq_refl)
      as (Hn & _ & _ & _ & Hrows).
    destruct (Hrows [None; Some "oops"; Some id7_text] eq_refl)
      as (recs & Hlen & Hplain & _ & Hshape).
    { constructor; [left; reflexivity|].
      constructor.
      { right. exists "oops". split; [reflexivity|]. left. eexists. split; reflexivity. }
      constructor; [|constructor].
      right. exists id7_text. split; [reflexivity|]. right. eexists. reflexivity. }
    simpl in Hn. rewrite Hn in Hex, Hplain.
    rewrite Hplain in Hex by lia.
    destruct recs as [|x0 [|x1 [|x2 [|x3 recs]]]]; try discriminate Hlen.
    apply Forall2_cons_1 in Hshape as [[Hempty _] Hshape].
    apply Forall2_cons_1 in Hshape as [[_ Hbad] _].
    exists [x0; x1; x2], x0, x1, x2. split; [exact Hex|]. split; [reflexivity|].
    split.
    + rewrite (Hempty eq_refl). reflexivity.
    + rewrite (Hbad "oops" _ eq_refl ltac:(discriminate) eq_refl). reflexivity.
Defined.

(** C6 at [sampling_session]: 38 of the 40 source rows are not deleted. *)
Lemma summary_row_invariants_witness :
  ∃ row source_count loss,
    main loads_table dumps_indent4 sampling_session
      = Return {| df_schema := result_schema; df_rows := [row] |}
    ∧ field result_schema "SOURCE_COUNT" row = Some (VLong source_count)
    ∧ field result_schema "TOTAL_ROWS_LOST" row = Some (VLong loss)
    ∧ field result_schema "BIZVIEW_COUNT" row = Some (VLong (source_count - loss))
    ∧ source_count = 38.
Proof.
  assert (∃ row, main loads_table dumps_indent4 sampling_session
                   = Return {| df_schema := result_schema; df_rows := [row] |})
    as [row Hmain] by (eexists; vm_compute; reflexivity).
  destruct (summary_row_invariants loads_table dumps_indent4 sampling_session _ row Hmain)
    as (sc & loss & Hsc & _ & _ & _ & _ & _ & Htotal & _ & _ & _ & Hbiz
        & config & total & dc & Hin & _ & _ & Hdel).
  { simpl. left. }
  exists row, sc, loss. repeat split; try assumption.
  apply list_elem_of_singleton in Hin. subst config.
  apply (Hdel "_IS_DELETED" 38 eq_refl eq_refl).
Defined.

(** C8 at a list of two configurations. *)
Lemma rows_follow_config_order_witness :
  ∃ entity_row order_row,
    main_with loads_table dumps_indent4 [entity_config; order_config] sampling_session
      = Return {| df_schema := result_schema; df_rows := [entity_row; order_row] |}
    ∧ field result_schema "TABLE_NAME" entity_row = Some (VStr "ENTITY_TABLE")
    ∧ field result_schema "TABLE_NAME" order_row = Some (VStr "ORDER_TABLE").
Proof.
  assert (∃ entity_row order_row,
            main_with loads_table dumps_indent4 [entity_config; order_config]
                      sampling_session
              = Return {| df_schema := result_schema;
                          df_rows := [entity_row; order_row] |})
    as (entity_row & order_row & Hmain) by (eexists _, _; vm_compute; reflexivity).
  destruct (rows_follow_config_order loads_table dumps_indent4 _ _ _ Hmain)
    as (kept & _ & Hall & Hrows).
  rewrite Hall in Hrows by discriminate.
  apply Forall2_cons_1 in Hrows as [(Hentity & _) Hrows].
  apply Forall2_cons_1 in Hrows as [(Horder & _) _].
  exists entity_row, order_row. split; [exact Hmain|]. split.
  - exact Hentity.
  - exact Horder.
Defined.

(** C9, counterexample.  The session refuses to build any DataFrame: the
    fallback call raises too, and [main] returns nothing. *)
Lemma fallback_can_raise :
  create_dataframe dead_session
      (results (main_loop loads_table dumps_indent4 dead_session table_configs))
      result_schema = Raise frame_error
  ∧ main loads_table dumps_indent4 dead_session = Raise frame_error.
Proof. split; vm_compute; reflexivity. Qed.

(** C9 at [rejecting_session]: the first build raises, the fallback succeeds. *)
Lemma rows_fit_result_schema_witness :
  length result_schema = 18%nat
  ∧ Forall (λ row, length row = 18%nat ∧ conforms result_schema row)
           (results (main_loop loads_table dumps_indent4 rejecting_session table_configs))
  ∧ main loads_table dumps_indent4 rejecting_session
      = Return {| df_schema := result_schema; df_rows := [] |}.
Proof.
  destruct (rows_fit_result_schema loads_table dumps_indent4 rejecting_session)
    as (_ & Hfit & _ & Hfallback).
  split; [reflexivity|]. split; [exact Hfit|].
  destruct (Hfallback frame_error) as [_ Hempty]; [vm_compute; reflexivity|].
  apply Hempty. reflexivity.
Defined.

(** C10 at a count above the limit (25) and at one below it (1). *)
Lemma note_iff_count_exceeds_limit_witness :
  (∃ recs,
     extract_missing_records loads_table sampling_session entity_config 10
       = Return (25, recs ++
           [JDict [ ("NOTE", JStr "Showing 10 of 25 total missing records");
                    ("source_table", JStr "SOURCE_DB.SOURCE_SCHEMA.ENTITY_TABLE");
                    ("hub_table", JStr "DV_DB.RAWVAULT.H_ENTITY");
                    ("satellite_table", JStr "DV_DB.RAWVAULT.S_ENTITY_LROC_INFO_CURRENT");
                    ("bizview_table", JStr "DV_DB.BIZVIEWS.FACT_ENTITY") ]])
     ∧ length recs = 10%nat)
  ∧ (∃ out,
       extract_missing_records loads_table entity_session entity_config 10
         = Return (1, out)
       ∧ length out = 1%nat).
Proof.
  split.
  - destruct (note_iff_count_exceeds_limit loads_table sampling_session entity_config 10
                entity_except_query (replicate 10 (Some id7_text))
                (replicate 10 (JDict [ ("ID", JInt 7);
                   ("__metadata",
                    JDict (config_metadata entity_config
                             ++ [("record_type", JStr "missing")]));
                   ("__record_separator", JBool true) ])) 25)
      as (out & Hex & Hlen & Hnote & _ & _).
    + reflexivity.
    + exact entity_query_nonempty.
    + reflexivity.
    + reflexivity.
    + vm_compute. reflexivity.
    + eexists. rewrite Hnote in Hex by (vm_compute; reflexivity).
      split; [exact Hex | reflexivity].
  - destruct (note_iff_count_exceeds_limit loads_table entity_session entity_config 10
                entity_except_query [Some id7_text]
                [JDict [ ("ID", JInt 7);
                   ("__metadata",
                    JDict (config_metadata entity_config
                             ++ [("record_type", JStr "missing")]));
                   ("__record_separator", JBool true) ]] 1)
      as (out & Hex & _ & _ & Hplain & _).
    + reflexivity.
    + exact entity_query_nonempty.
    + reflexivity.
    + reflexivity.
    + vm_compute. reflexivity.
    + exists out. split; [exact Hex|].
      rewrite Hplain by (vm_compute; discriminate). reflexivity.
Defined.

(* ================================================================= *)
(** * Further properties of the script *)

(** ** Strings and dictionaries *)

Lemma string_app_assoc (a b c : string) : (a +:+ b) +:+ c = a +:+ (b +:+ c).
Proof.
  induction a as [|x a IH]; [reflexivity|].
  change (String x ((a +:+ b) +:+ c) = String x (a +:+ (b +:+ c))).
  now rewrite IH.
Qed.

Lemma split_dot_nonempty (s : string) : split_dot s ≠ [].
Proof.
  destruct s as [|c s]; simpl; [discriminate|].
  destruct (Ascii.eqb c "."); [discriminate|].
  destruct (split_dot s); discriminate.
Qed.

Lemma split_dot_no_dot (s : string) : Forall (λ x, no_dot x = true) (split_dot s).
Proof.
  induction s as [|c s IH]; simpl.
  - repeat constructor.
  - destruct (Ascii.eqb c ".") eqn:Hc.
    + constructor; [reflexivity | exact IH].
    + destruct (split_dot s) as [|x xs]; [repeat constructor; simpl; now rewrite Hc|].
      inversion IH as [|? ? Hx Hxs]; subst.
      constructor; [simpl; now rewrite Hc, Hx | exact Hxs].
Qed.

Lemma split_dot_join (s : string) : String.concat "." (split_dot s) = s.
Proof.
  induction s as [|c s IH]; [reflexivity|].
  pose proof (split_dot_nonempty s) as Hne. simpl.
  destruct (Ascii.eqb c ".") eqn:Hc.
  - apply Ascii.eqb_eq in Hc. subst c.
    destruct (split_dot s) as [|x xs]; [contradiction|].
    rewrite <- IH. reflexivity.
  - destruct (split_dot s) as [|x xs]; [contradiction|].
    rewrite <- IH. destruct xs; reflexivity.
Qed.

Lemma join_last (l : list string) :
  l ≠ [] →
  ∃ prefix,
    String.concat "." l = prefix +:+ List.last l ""
    ∧ (prefix = "" ∨ ∃ p, prefix = p +:+ ".").
Proof.
  induction l as [|x l IH]; [contradiction|]. intros _.
  destruct l as [|y l].
  - exists "". simpl. auto.
  - destruct IH as (prefix & Hjoin & Hprefix); [discriminate|].
    exists (x +:+ "." +:+ prefix). split.
    + change (String.concat "." (x :: y :: l))
        with (x +:+ "." +:+ String.concat "." (y :: l)).
      rewrite Hjoin. change (List.last (x :: y :: l) "") with (List.last (y :: l) "").
      now rewrite !string_app_assoc.
    + right. destruct Hprefix as [->|[p ->]].
      * exists x. reflexivity.
      * exists (x +:+ "." +:+ p). now rewrite !string_app_assoc.
Qed.

Lemma dict_set_keys {V} (k : string) (v : V) (d : list (string * V)) :
  dict_keys (dict_set k v d)
    = if decide (k ∈ dict_keys d) then dict_keys d else dict_keys d ++ [k].
Proof.
  unfold dict_keys. induction d as [|[k' v'] d IH].
  - destruct (decide (k ∈ map fst [])) as [Hin|_]; [|reflexivity].
    now apply elem_of_nil in Hin.
  - cbn [dict_set map fst]. destruct (String.eqb k k') eqn:E.
    + apply String.eqb_eq in E. subst k'.
      destruct (decide (k ∈ k :: map fst d)) as [_|Hnin]; [reflexivity|].
      destruct Hnin. apply list_elem_of_here.
    + apply String.eqb_neq in E. cbn [map fst]. rewrite IH.
      destruct (decide (k ∈ map fst d)) as [Hin|Hnin];
        destruct (decide (k ∈ k' :: map fst d)) as [Hin'|Hnin']; try reflexivity.
      * destruct Hnin'. now apply list_elem_of_further.
      * apply elem_of_cons in Hin' as [?|?]; contradiction.
Qed.

Lemma dict_set_fresh {V} (k : string) (v : V) (d : list (string * V)) :
  k ∉ dict_keys d → dict_set k v d = d ++ [(k, v)].
Proof.
  unfold dict_keys. induction d as [|[k' v'] d IH]; simpl; [reflexivity|].
  intros Hnin. apply not_elem_of_cons in Hnin as [Hne Hnin].
  apply String.eqb_neq in Hne. rewrite Hne. now rewrite IH.
Qed.

Lemma for_each_Raise {A B} (f : A → result B) (l : list A) (i : nat) x e :
  l !! i = Some x → f x = Raise e → ∃ e', for_each f l = Raise e'.
Proof.
  revert i. induction l as [|y l IH]; intros i Hi Hx; [discriminate|].
  simpl. unfold mbind, result_bind, rbind.
  destruct (f y) as [b|e0] eqn:Hy; [|eauto].
  destruct i as [|i]; simpl in Hi.
  - injection Hi as ->. congruence.
  - destruct (IH i Hi Hx) as [e' ->]. eauto.
Qed.

Section ExtractionEdges.

Variable json_loads : string → result json.

Implicit Types (session : Session) (config : config) (limit : Z).

(** X1.  A stored record lists the keys of the warehouse object first, in
    their order, and after them those of [__metadata] and
    [__record_separator] that the object did not already have: a marker that
    collides with a column keeps the column's place. *)
Theorem stored_keys_keep_order source hub satellite bizview text d :
  text ≠ "" →
  json_loads text = Return (JDict d) →
  ∃ stored,
    record_of_row json_loads source hub satellite bizview (Some text)
      = Return (JDict stored)
    ∧ dict_keys stored
        = dict_keys d
            ++ filter (λ k, k ∉ dict_keys d) ["__metadata"; "__record_separator"].
Proof.
  intros Hne Hd. eexists.
  split; [apply (record_of_row_object json_loads _ _ _ _ text d Hne Hd)|].
  rewrite !dict_set_keys.
  destruct (decide ("__metadata" ∈ dict_keys d)) as [Hm|Hm].
  - rewrite filter_cons_False by (intros H; now apply H).
    destruct (decide ("__record_separator" ∈ dict_keys d)) as [Hs|Hs].
    + rewrite filter_cons_False by (intros H; now apply H).
      now rewrite app_nil_r.
    + now rewrite filter_cons_True by exact Hs.
  - rewrite filter_cons_True by exact Hm.
    destruct (decide ("__record_separator" ∈ dict_keys d)) as [Hs|Hs].
    + rewrite filter_cons_False by (intros H; now apply H).
      rewrite decide_True; [reflexivity|].
      apply elem_of_app. now left.
    + rewrite filter_cons_True by exact Hs.
      rewrite decide_False; [now rewrite <- app_assoc|].
      intros [?|Hin]%elem_of_app; [contradiction|].
      apply list_elem_of_singleton in Hin. discriminate.
Qed.

(** X2.  A collected row that is NULL or empty, or whose text does not
    decode, does not stop the extraction: the returned list has one entry per
    collected row, in order, and such a row's entry is an error dictionary
    that stands in its place. *)
Theorem bad_rows_keep_their_place session config limit q rows :
  custom_except_query config = Some q → q ≠ "" →
  sql_record_json session (json_query q limit) = Return rows →
  Forall (λ row,
            truthy row = false
            ∨ ∃ t, row = Some t
                   ∧ ((∃ e, json_loads t = Raise e ∧ exn_kind e = JSONDecodeError)
                      ∨ ∃ d, json_loads t = Return (JDict d))) rows →
  ∃ recs,
    extract_missing_records json_loads session config limit
      = Return (reported_count session q,
                if limit <? reported_count session q
                then recs ++ [sample_note (source_or_unknown config) (hub_or_unknown config)
                                (satellite_or_unknown config) (bizview_or_unknown config)
                                limit (reported_count session q)]
                else recs)
    ∧ Forall2 (λ row x,
                 is_sample_entry x = true
                 ∧ (truthy row = false →
                    x = JDict [ ("error", JStr "Empty JSON result");
                                ("__metadata", JDict (config_metadata config));
                                ("__record_separator", JBool true) ])
                 ∧ (∀ t e, row = Some t → t ≠ "" → json_loads t = Raise e →
                    x = JDict [ ("error", JStr ("Failed to parse JSON: " +:+ exn_str e));
                                ("__metadata", JDict (config_metadata config));
                                ("__record_separator", JBool true) ]))
              rows recs.
Proof.
  intros Hq Hne Hrows Hall.
  assert (∃ recs,
    for_each (record_of_row json_loads (source_or_unknown config) (hub_or_unknown config)
                (satellite_or_unknown config) (bizview_or_unknown config)) rows
      = Return recs
    ∧ Forall2 (λ row x,
                 is_sample_entry x = true
                 ∧ (truthy row = false →
                    x = JDict [ ("error", JStr "Empty JSON result");
                                ("__metadata", JDict (config_metadata config));
                                ("__record_separator", JBool true) ])
                 ∧ (∀ t e, row = Some t → t ≠ "" → json_loads t = Raise e →
                    x = JDict [ ("error", JStr ("Failed to parse JSON: " +:+ exn_str e));
                                ("__metadata", JDict (config_metadata config));
                                ("__record_separator", JBool true) ]))
              rows recs) as (recs & Hrecs & Hshape).
  { clear Hrows.
    induction Hall as [|row rows Hrow _ (recs & Hrecs & IH)].
    - exists []. split; [reflexivity | constructor].
    - assert (∃ x, record_of_row json_loads (source_or_unknown config)
                     (hub_or_unknown config) (satellite_or_unknown config)
                     (bizview_or_unknown config) row = Return x
                   ∧ (truthy row = false →
                      x = JDict [ ("error", JStr "Empty JSON result");
                                  ("__metadata", JDict (config_metadata config));
                                  ("__record_separator", JBool true) ])
                   ∧ (∀ t e, row = Some t → t ≠ "" → json_loads t = Raise e →
                      x = JDict [ ("error", JStr ("Failed to parse JSON: " +:+ exn_str e));
                                  ("__metadata", JDict (config_metadata config));
                                  ("__record_separator", JBool true) ]))
        as (x & Hx & Hempty & Hbad).
      { unfold record_of_row. destruct (truthy row) eqn:Ht.
        - destruct Hrow as [?|(t & -> & Hload)]; [discriminate|].
          simpl. run_result.
          destruct Hload as [(e & He & Hkind)|(d & Hd)].
          + rewrite He, Hkind. simpl. eexists. split; [reflexivity|].
            split; [discriminate|].
            intros t' e' [= <-] _ He'. rewrite He in He'. now injection He' as <-.
          + rewrite Hd. simpl. eexists. split; [reflexivity|].
            split; [discriminate|].
            intros t' e' [= <-] _ He'. congruence.
        - eexists. split; [reflexivity|]. split; [reflexivity|].
          intros t e -> Hne' _. apply truthy_Some in Hne'. congruence. }
      exists (x :: recs). simpl. rewrite Hx, Hrecs. split; [reflexivity|].
      constructor; [|exact IH].
      split; [|split; assumption].
      eapply record_of_row_sample, Hx. }
  exists recs. split; [|exact Hshape].
  rewrite (extract_with_query json_loads _ _ _ q Hq Hne).
  unfold collect_missing_records, mbind, result_bind, rbind.
  now rewrite Hrows, Hrecs.
Qed.

(** X3.  One collected row whose text decodes to something other than an
    object (a list, a number, a string, null) discards the whole sample: the
    returned list is the single "JSON processing error" dictionary, whatever
    the other rows hold. *)
Theorem non_object_row_discards_sample session config limit q rows i t v :
  custom_except_query config = Some q → q ≠ "" →
  sql_record_json session (json_query q limit) = Return rows →
  rows !! i = Some (Some t) → t ≠ "" →
  json_loads t = Return v → is_dict v = false →
  ∃ e,
    extract_missing_records json_loads session config limit
      = Return (reported_count session q,
                [error_entry "JSON processing error: " e config]).
Proof.
  intros Hq Hne Hrows Hi Ht Hv Hnd.
  assert (∃ e, record_of_row json_loads (source_or_unknown config) (hub_or_unknown config)
                 (satellite_or_unknown config) (bizview_or_unknown config) (Some t)
               = Raise e) as [e He].
  { unfold record_of_row. rewrite (proj2 (truthy_Some t) Ht). simpl. run_result.
    rewrite Hv. destruct v; try discriminate; simpl; eauto. }
  destruct (for_each_Raise _ rows i _ e Hi He) as [e' He'].
  exists e'. rewrite (extract_with_query json_loads _ _ _ q Hq Hne).
  unfold collect_missing_records, mbind, result_bind, rbind.
  now rewrite Hrows, He'.
Qed.

End ExtractionEdges.

Lemma Forall_last {A} (P : A → Prop) (l : list A) (d : A) :
  Forall P l → l ≠ [] → P (List.last l d).
Proof.
  induction 1 as [|x l Hx Hl IH]; [contradiction|]. intros _.
  destruct l as [|y l]; [exact Hx|]. apply IH. discriminate.
Qed.

Lemma last_segment_suffix (s : string) :
  ∃ prefix,
    s = prefix +:+ last_segment s
    ∧ (prefix = "" ∨ ∃ p, prefix = p +:+ ".")
    ∧ no_dot (last_segment s) = true.
Proof.
  unfold last_segment.
  destruct (join_last (split_dot s) (split_dot_nonempty s)) as (prefix & Hjoin & Hprefix).
  rewrite split_dot_join in Hjoin.
  exists prefix. split; [exact Hjoin|]. split; [exact Hprefix|].
  apply (Forall_last (λ x, no_dot x = true));
    [apply split_dot_no_dot | apply split_dot_nonempty].
Qed.

Lemma Forall2_functional {A B} (R : A → B → Prop) (l : list A) (k1 k2 : list B) :
  (∀ x y z, R x y → R x z → y = z) →
  Forall2 R l k1 → Forall2 R l k2 → k1 = k2.
Proof.
  intros Hfun H1. revert k2.
  induction H1 as [|x y l k1 Hxy _ IH]; intros k2 H2;
    inversion H2 as [|? z ? k2' Hxz H2']; subst; [reflexivity|].
  f_equal; [eapply Hfun; eassumption | now apply IH].
Qed.

Section MainEdges.

Variable json_loads : string → result json.
Variable json_dumps : json → string.

Implicit Types (session : Session) (config : config) (st : main_state).

Lemma summarises_functional session config row1 entry1 row2 entry2 :
  summarises json_loads json_dumps session config row1 entry1 →
  summarises json_loads json_dumps session config row2 entry2 →
  row1 = row2 ∧ entry1 = entry2.
Proof.
  intros (sc1 & nd1 & dc1 & l1 & r1 & Hs1 & Hn1 & He1 & -> & ->)
         (sc2 & nd2 & dc2 & l2 & r2 & Hs2 & Hn2 & He2 & -> & ->).
  rewrite Hs1 in Hs2. injection Hs2 as <-.
  rewrite Hn1 in Hn2. injection Hn2 as <- <-.
  rewrite He1 in He2. injection He2 as <- <-.
  split; reflexivity.
Qed.

(** X4.  TABLE_NAME is the part of [source_table] after its last dot: it has
    no dot, and [source_table] is it, alone or behind a prefix that ends with
    a dot (a missing [source_table] counts as the empty text). *)
Theorem table_name_is_last_segment configs session :
  Forall2 (λ config row,
             ∃ name prefix,
               field result_schema "TABLE_NAME" row = Some (VStr name)
               ∧ no_dot name = true
               ∧ default "" (source_table config) = prefix +:+ name
               ∧ (prefix = "" ∨ ∃ p, prefix = p +:+ "."))
          configs (results (main_loop json_loads json_dumps session configs)).
Proof.
  eapply Forall2_impl; [apply main_loop_rows|].
  intros config row [entry Hsum]. open_summary Hsum.
  destruct (last_segment_suffix (default "" (source_table config)))
    as (prefix & Hs & Hprefix & Hdot).
  exists (last_segment (default "" (source_table config))), prefix.
  split; [reflexivity|]. auto.
Qed.

(** X5.  The count columns of a summary row add up: SOURCE_COUNT plus
    DELETED_RECORDS is the source count the turn obtained, and so is
    HUB_COUNT plus SOURCE_TO_HUB_LOSS plus DELETED_RECORDS. *)
Theorem counts_add_up configs session :
  Forall2 (λ config row,
             ∃ total non_deleted deleted_count hub loss,
               count_source_records session (source_table config) = Return total
               ∧ field result_schema "SOURCE_COUNT" row = Some (VLong non_deleted)
               ∧ field result_schema "DELETED_RECORDS" row = Some (VLong deleted_count)
               ∧ field result_schema "HUB_COUNT" row = Some (VLong hub)
               ∧ field result_schema "SOURCE_TO_HUB_LOSS" row = Some (VLong loss)
               ∧ non_deleted + deleted_count = total
               ∧ hub + loss + deleted_count = total)
          configs (results (main_loop json_loads json_dumps session configs)).
Proof.
  eapply Forall2_impl; [apply main_loop_rows|].
  intros config row [entry Hsum]. open_summary Hsum.
  exists source_count, non_deleted, deleted_count, (non_deleted - loss), loss.
  do 5 (split; [reflexivity || assumption|]).
  unfold count_non_deleted_records in Hnd. run_result.
  destruct (deleted_column config) as [col|].
  - destruct (sql_scalar _ _) as [n|e]; injection Hnd as <- <-; lia.
  - injection Hnd as <- <-. lia.
Qed.

(** X6.  How the two count queries fall back.  When the source count query
    raises but the non-deleted query answers [n], the row reports
    SOURCE_COUNT [n] and a negative DELETED_RECORDS, [-n].  When the
    non-deleted query raises, or the configuration has no [deleted_column],
    every source row counts as not deleted. *)
Theorem count_queries_fall_back configs session i config :
  configs !! i = Some config →
  ∃ row,
    results (main_loop json_loads json_dumps session configs) !! i = Some row
    ∧ (∀ e col n,
         sql_scalar session (source_count_query (source_table config)) = Raise e →
         deleted_column config = Some col →
         sql_scalar session (non_deleted_query (source_table config) col) = Return n →
         field result_schema "SOURCE_COUNT" row = Some (VLong n)
         ∧ field result_schema "DELETED_RECORDS" row = Some (VLong (- n)))
    ∧ (∀ total col e,
         sql_scalar session (source_count_query (source_table config)) = Return total →
         deleted_column config = Some col →
         sql_scalar session (non_deleted_query (source_table config) col) = Raise e →
         field result_schema "SOURCE_COUNT" row = Some (VLong total)
         ∧ field result_schema "DELETED_RECORDS" row = Some (VLong 0))
    ∧ (∀ total,
         sql_scalar session (source_count_query (source_table config)) = Return total →
         deleted_column config = None →
         field result_schema "SOURCE_COUNT" row = Some (VLong total)
         ∧ field result_schema "DELETED_RECORDS" row = Some (VLong 0)).
Proof.
  intros Hi.
  pose proof (main_loop_rows json_loads json_dumps session configs) as Hrows.
  destruct (Forall2_lookup_l _ _ _ _ _ Hrows Hi) as (row & Hrow & entry & Hsum).
  open_summary Hsum. eexists. split; [exact Hrow|].
  unfold count_source_records, count_non_deleted_records in *. run_result.
  split; [|split].
  - intros e col n He Hcol Hn. rewrite He in Hsrc. injection Hsrc as <-.
    rewrite Hcol, Hn in Hnd. injection Hnd as <- <-. split; reflexivity.
  - intros total col e Ht Hcol He. rewrite Ht in Hsrc. injection Hsrc as <-.
    rewrite Hcol, He in Hnd. injection Hnd as <- <-. split; reflexivity.
  - intros total Ht Hcol. rewrite Ht in Hsrc. injection Hsrc as <-.
    rewrite Hcol in Hnd. injection Hnd as <- <-. split; reflexivity.
Qed.

(** X7.  A configuration without a custom EXCEPT query (the key is missing or
    its text is empty) still gets its summary row: no loss is reported,
    HUB_COUNT equals SOURCE_COUNT, and the details carry an empty
    [source_to_hub] list. *)
Theorem config_without_except_query configs session i config :
  configs !! i = Some config →
  truthy (custom_except_query config) = false →
  ∃ row source_count deleted_count,
    results (main_loop json_loads json_dumps session configs) !! i = Some row
    ∧ field result_schema "SOURCE_TO_HUB_LOSS" row = Some (VLong 0)
    ∧ field result_schema "TOTAL_ROWS_LOST" row = Some (VLong 0)
    ∧ field result_schema "SOURCE_COUNT" row = Some (VLong source_count)
    ∧ field result_schema "HUB_COUNT" row = Some (VLong source_count)
    ∧ field result_schema "DELETED_RECORDS" row = Some (VLong deleted_count)
    ∧ field result_schema "LOST_RECORDS_DETAILS" row
        = Some (VStr (json_dumps
             (JDict [ ("source_to_hub", JList []);
                      ("missing_count", JInt 0);
                      ("hub_to_satellite", JList []);
                      ("hub_to_link", JList []);
                      ("link_to_satellite", JList []);
                      ("satellite_to_bizview", JList []);
                      ("deleted", JInt deleted_count) ]))).
Proof.
  intros Hi Hnone.
  pose proof (main_loop_rows json_loads json_dumps session configs) as Hrows.
  destruct (Forall2_lookup_l _ _ _ _ _ Hrows Hi) as (row & Hrow & entry & Hsum).
  open_summary Hsum.
  rewrite (extract_no_query json_loads _ _ _ Hnone) in Hex. injection Hex as <- <-.
  subst entry. eexists _, non_deleted, deleted_count. split; [exact Hrow|].
  do 3 (split; [reflexivity|]).
  split; [simpl; do 2 f_equal; lia|]. split; reflexivity.
Qed.

(** X8.  The JSON details of a summary row agree with its columns: the
    dictionary that is serialized holds the list and the count
    [extract_missing_records] returned, the latter being the row's
    SOURCE_TO_HUB_LOSS, the row's DELETED_RECORDS under [deleted], and four
    empty lists for the transitions that are not checked. *)
Theorem details_agree_with_columns configs session :
  Forall2 (λ config row,
             ∃ loss deleted_count recs,
               extract_missing_records json_loads session config default_limit
                 = Return (loss, recs)
               ∧ field result_schema "SOURCE_TO_HUB_LOSS" row = Some (VLong loss)
               ∧ field result_schema "DELETED_RECORDS" row = Some (VLong deleted_count)
               ∧ field result_schema "LOST_RECORDS_DETAILS" row
                   = Some (VStr (json_dumps
                        (JDict [ ("source_to_hub", JList recs);
                                 ("missing_count", JInt loss);
                                 ("hub_to_satellite", JList []);
                                 ("hub_to_link", JList []);
                                 ("link_to_satellite", JList []);
                                 ("satellite_to_bizview", JList []);
                                 ("deleted", JInt deleted_count) ]))))
          configs (results (main_loop json_loads json_dumps session configs)).
Proof.
  eapply Forall2_impl; [apply main_loop_rows|].
  intros config row [entry Hsum]. open_summary Hsum. subst entry.
  exists loss, deleted_count, recs. repeat split; assumption || reflexivity.
Qed.

(** X9.  A configuration's summary row depends on the session and on that
    configuration alone, not on its neighbours in the list: the rows of a
    concatenated list are the rows of its two parts, one after the other. *)
Theorem rows_of_concatenated_configs configs1 configs2 session :
  results (main_loop json_loads json_dumps session (configs1 ++ configs2))
    = results (main_loop json_loads json_dumps session configs1)
        ++ results (main_loop json_loads json_dumps session configs2).
Proof.
  eapply Forall2_functional; [|apply main_loop_rows|].
  - intros config row1 row2 [entry1 H1] [entry2 H2].
    eapply summarises_functional; eassumption.
  - apply Forall2_app; apply main_loop_rows.
Qed.

(** X10.  [main] raises only when the session refuses both DataFrames: the
    one built from the rows and the empty fallback; the exception is the one
    the fallback raised. *)
Theorem main_raises_iff_both_builds_raise configs session e :
  main_with json_loads json_dumps configs session = Raise e
  ↔ (∃ e1, create_dataframe_error session
             (results (main_loop json_loads json_dumps session configs)) result_schema
           = Some e1)
    ∧ create_dataframe_error session [] result_schema = Some e.
Proof.
  destruct (create_dataframe_error session
              (results (main_loop json_loads json_dumps session configs)) result_schema)
    as [e1|] eqn:Hdf.
  - rewrite (main_with_fallback json_loads json_dumps _ _ e1 Hdf).
    unfold create_dataframe.
    destruct (create_dataframe_error session [] result_schema) as [e2|].
    + split; [intros [= <-]; eauto | intros [_ [= <-]]; reflexivity].
    + split; [discriminate | intros [_ ?]; discriminate].
  - rewrite (main_with_built json_loads json_dumps _ _ Hdf).
    split; [discriminate | intros [[? ?] _]; discriminate].
Qed.

End MainEdges.

Section LostRecords.

Variable json_loads : string → result json.
Variable json_dumps : json → string.

Implicit Types (session : Session) (config : config) (st : main_state).

Lemma for_configs_keeps_other_names session configs st k :
  Forall (λ c, table_name_of c ≠ k) configs →
  dict_get k (lost_records
                (for_configs (process_config json_loads json_dumps session) configs st).1)
    = dict_get k (lost_records st).
Proof.
  intros Hall. revert st.
  induction Hall as [|config configs Hne _ IH]; intros st; [reflexivity|].
  destruct (process_config_run json_loads json_dumps session config st)
    as (row & entry & _ & Hrun).
  simpl. unfold mbind, M_bind. rewrite Hrun, IH. simpl.
  apply dict_get_set_ne. unfold table_name_of in Hne. congruence.
Qed.

Lemma for_configs_entry session configs st i config :
  configs !! i = Some config →
  (∀ j c, (i < j)%nat → configs !! j = Some c →
          table_name_of c ≠ table_name_of config) →
  ∃ row entry,
    summarises json_loads json_dumps session config row entry
    ∧ results (for_configs (process_config json_loads json_dumps session) configs st).1
        !! (length (results st) + i)%nat = Some row
    ∧ dict_get (table_name_of config)
        (lost_records
           (for_configs (process_config json_loads json_dumps session) configs st).1)
      = Some entry.
Proof.
  revert st i. induction configs as [|c configs IH]; intros st i Hi Hlater;
    [discriminate|].
  destruct (process_config_run json_loads json_dumps session c st)
    as (row & entry & Hsum & Hrun).
  simpl. unfold mbind, M_bind. rewrite Hrun.
  destruct i as [|i]; simpl in Hi.
  - injection Hi as ->. exists row, entry. split; [exact Hsum|]. split.
    + match goal with |- context [for_configs _ _ ?s] =>
        destruct (for_configs_run json_loads json_dumps session configs s)
          as (rows & st' & Hloop & Hres & _) end.
      rewrite Hloop. simpl. rewrite Hres. simpl.
      rewrite Nat.add_0_r, <- app_assoc. apply list_lookup_middle. reflexivity.
    + rewrite for_configs_keeps_other_names.
      * simpl. apply dict_get_set_eq.
      * apply Forall_forall. intros c' Hin.
        apply list_elem_of_lookup in Hin as [j Hj].
        apply (Hlater (S j) c'); [lia | exact Hj].
  - match goal with |- context [for_configs _ _ ?s] =>
      destruct (IH s i Hi) as (row' & entry' & Hsum' & Hrow' & Hentry') end.
    { intros j c' Hlt Hj. apply (Hlater (S j) c'); [lia | exact Hj]. }
    exists row', entry'. split; [exact Hsum'|]. split; [|exact Hentry'].
    simpl in Hrow'. rewrite length_app in Hrow'. simpl in Hrow'.
    replace (length (results st) + S i)%nat with (length (results st) + 1 + i)%nat by lia.
    exact Hrow'.
Qed.

(** X11.  [lost_records] is keyed by table name alone: after the loop, the
    entry under a configuration's table name is the one of that
    configuration, provided no later configuration has the same table name
    (a later one, even of another database or schema, replaces it). *)
Theorem lost_records_keep_last_entry configs session i config :
  configs !! i = Some config →
  (∀ j c, (i < j)%nat → configs !! j = Some c →
          table_name_of c ≠ table_name_of config) →
  ∃ row loss recs deleted_count,
    results (main_loop json_loads json_dumps session configs) !! i = Some row
    ∧ extract_missing_records json_loads session config default_limit
        = Return (loss, recs)
    ∧ field result_schema "DELETED_RECORDS" row = Some (VLong deleted_count)
    ∧ dict_get (table_name_of config)
        (lost_records (main_loop json_loads json_dumps session configs))
      = Some {| source_to_hub := recs;
                missing_count := loss;
                hub_to_satellite := [];
                hub_to_link := [];
                link_to_satellite := [];
                satellite_to_bizview := [];
                deleted := deleted_count |}.
Proof.
  intros Hi Hlater.
  destruct (for_configs_entry session configs init_state i config Hi Hlater)
    as (row & entry & Hsum & Hrow & Hentry).
  open_summary Hsum. subst entry.
  eexists _, loss, recs, deleted_count.
  split; [exact Hrow|]. split; [exact Hex|]. split; [reflexivity | exact Hentry].
Qed.

(** X12.  The sample size the summary loop prints for a row is the number of
    rows that were collected for it, when its extraction succeeded and no
    later configuration has the same table name: the NOTE entry is
    subtracted exactly when it was appended. *)
Theorem summary_reports_collected_rows configs session i config q rows recs :
  configs !! i = Some config →
  (∀ j c, (i < j)%nat → configs !! j = Some c →
          table_name_of c ≠ table_name_of config) →
  custom_except_query config = Some q → q ≠ "" →
  sql_record_json session (json_query q default_limit) = Return rows →
  for_each (record_of_row json_loads (source_or_unknown config) (hub_or_unknown config)
              (satellite_or_unknown config) (bizview_or_unknown config)) rows
    = Return recs →
  ∃ sizes,
    for_each (summary_sample_size (main_loop json_loads json_dumps session configs))
             (results (main_loop json_loads json_dumps session configs)) = Return sizes
    ∧ sizes !! i = Some (Z.of_nat (length rows)).
Proof.
  intros Hi Hlater Hq Hne Hrows Hrecs.
  destruct (summary_loop_returns json_loads json_dumps session configs) as [sizes Hsizes].
  exists sizes. split; [exact Hsizes|].
  apply for_each_Return in Hsizes.
  destruct (for_configs_entry session configs init_state i config Hi Hlater)
    as (row & entry & Hsum & Hrow & Hentry).
  fold (main_loop json_loads json_dumps session configs) in Hrow, Hentry.
  simpl in Hrow.
  destruct (Forall2_lookup_l _ _ _ _ _ Hsizes Hrow) as (size & Hsize & Hrun).
  rewrite Hsize. f_equal.
  open_summary Hsum. subst entry.
  rewrite (extract_with_query json_loads _ _ _ q Hq Hne) in Hex.
  unfold collect_missing_records, mbind, result_bind, rbind in Hex.
  rewrite Hrows, Hrecs in Hex. injection Hex as <- <-.
  unfold summary_sample_size, tuple_index, mbind, result_bind, rbind in Hrun.
  simpl in Hrun. unfold lookup_lost_records in Hrun.
  unfold table_name_of in Hentry. rewrite Hentry in Hrun. simpl in Hrun.
  injection Hrun as <-.
  pose proof (for_each_length _ _ _ Hrecs) as Hlen.
  unfold default_limit.
  destruct (10 <? reported_count session q).
  - rewrite length_app. simpl. lia.
  - lia.
Qed.

End LostRecords.

(* ================================================================= *)
(** ** [safe_json_conversion] *)

Lemma dict_set_NoDup {V} (k : string) (v : V) (d : list (string * V)) :
  NoDup (dict_keys d) → NoDup (dict_keys (dict_set k v d)).
Proof.
  intros Hd. rewrite dict_set_keys.
  destruct (decide (k ∈ dict_keys d)) as [Hin|Hnin]; [exact Hd|].
  apply NoDup_app. split; [exact Hd|]. split.
  - intros x Hx Hx'. apply list_elem_of_singleton in Hx'. now subst x.
  - apply NoDup_singleton.
Qed.

Lemma dict_set_Forall {V} (P : V → Prop) (k : string) (v : V) (d : list (string * V)) :
  P v → Forall (λ kv, P kv.2) d → Forall (λ kv, P kv.2) (dict_set k v d).
Proof.
  intros Hv. induction 1 as [|[k' v'] d Hv' Hd IH]; simpl.
  - repeat constructor. exact Hv.
  - destruct (String.eqb k k'); constructor; assumption.
Qed.

(** Inserting the entries of a well-formed dict, one after the other, behind
    entries with other keys rebuilds it. *)
Lemma insert_all_fresh {V} (f : V → V) (d acc : list (string * V)) :
  NoDup (dict_keys acc ++ dict_keys d) →
  fold_left (λ a kv, dict_set kv.1 (f kv.2) a) d acc
    = acc ++ map (λ kv, (kv.1, f kv.2)) d.
Proof.
  revert acc. induction d as [|[k v] d IH]; intros acc Hnd; simpl.
  - now rewrite app_nil_r.
  - rewrite dict_set_fresh.
    + rewrite IH, <- app_assoc; [reflexivity|].
      unfold dict_keys in *. rewrite map_app. simpl.
      rewrite <- app_assoc. exact Hnd.
    + apply NoDup_app in Hnd as (_ & Hdisj & _).
      intros Hin. apply (Hdisj k Hin). apply list_elem_of_here.
Qed.

Lemma fold_left_over_map {A B C} (f : A → B → A) (h : C → B) (l : list C) (acc : A) :
  fold_left f (map h l) acc = fold_left (λ a x, f a (h x)) l acc.
Proof. revert acc. induction l as [|x l IH]; intros acc; simpl; [reflexivity | apply IH]. Qed.

Lemma str_unless_container_idem (v : pyval) :
  str_unless_container (str_unless_container v) = str_unless_container v.
Proof. destruct v as [[]| |]; reflexivity. Qed.

Lemma comprehension_acc_invariant items acc :
  NoDup (dict_keys acc) →
  Forall (λ kv, str_unless_container kv.2 = kv.2) acc →
  NoDup (dict_keys
           (fold_left (λ a kv, dict_set (py_str kv.1) (str_unless_container kv.2) a)
                      items acc))
  ∧ Forall (λ kv, str_unless_container kv.2 = kv.2)
           (fold_left (λ a kv, dict_set (py_str kv.1) (str_unless_container kv.2) a)
                      items acc).
Proof.
  revert acc. induction items as [|[k v] items IH]; intros acc Hnd Hfix; simpl.
  - split; assumption.
  - apply IH.
    + now apply dict_set_NoDup.
    + apply (dict_set_Forall (λ v, str_unless_container v = v));
        [apply str_unless_container_idem | exact Hfix].
Qed.

Lemma process_row_dict_comprehension (row_dict : list (string * pyval)) :
  process_row_dict row_dict = comprehension (str_items row_dict).
Proof.
  unfold process_row_dict, comprehension, str_items.
  generalize (@nil (string * pyval)) as acc.
  induction row_dict as [|[k v] d IH]; intros acc; simpl; [reflexivity|].
  rewrite <- IH. f_equal. destruct v as [[]| |]; reflexivity.
Qed.

(** The result is a well-formed dict whose values are already converted. *)
Lemma safe_json_conversion_invariant (row : row_like) :
  NoDup (dict_keys (safe_json_conversion row))
  ∧ Forall (λ kv, str_unless_container kv.2 = kv.2) (safe_json_conversion row).
Proof.
  unfold safe_json_conversion, convert_or_error.
  destruct row as [items|columns cells|items|ty].
  - apply comprehension_acc_invariant; constructor.
  - rewrite process_row_dict_comprehension.
    apply comprehension_acc_invariant; constructor.
  - apply comprehension_acc_invariant; constructor.
  - split; [apply NoDup_singleton | repeat constructor].
Qed.

(** X13.  Converting twice changes nothing: whatever it was handed,
    [safe_json_conversion] returns a dictionary that it maps to itself. *)
Theorem safe_json_conversion_idempotent (row : row_like) :
  safe_json_conversion (IsDict (str_items (safe_json_conversion row)))
    = safe_json_conversion row.
Proof.
  destruct (safe_json_conversion_invariant row) as [Hnd Hfix].
  generalize dependent (safe_json_conversion row). intros d Hnd Hfix.
  unfold safe_json_conversion, convert_or_error, comprehension, str_items.
  rewrite fold_left_over_map. simpl.
  rewrite (insert_all_fresh str_unless_container d []) by exact Hnd.
  simpl. clear Hnd.
  induction Hfix as [|[k v] d Hv _ IH]; simpl; [reflexivity|].
  simpl in Hv. now rewrite Hv, IH.
Qed.

(** X14.  The branch for an object with [columns] and the branch for a dict
    agree: converting such an object gives what converting the dictionary
    [dict(zip(columns, cells))] gives. *)
Theorem columns_branch_agrees_with_dict_branch columns cells :
  safe_json_conversion (HasColumns columns cells)
    = safe_json_conversion (IsDict (str_items (zip_dict columns cells))).
Proof.
  unfold safe_json_conversion, convert_or_error.
  apply process_row_dict_comprehension.
Qed.

(** X15.  The conversion is shallow and keeps the order: when the keys have
    distinct texts, the result has one entry per item, in the items' order,
    under [str(k)]; a [None], a list or a dict is kept as it is (nothing
    inside it is converted) and any other value is replaced by its text. *)
Theorem conversion_of_distinct_keys items :
  NoDup (map (λ kv, py_str kv.1) items) →
  safe_json_conversion (IsDict items)
    = map (λ kv, (py_str kv.1, str_unless_container kv.2)) items
  ∧ (∀ k l, (k, PList l) ∈ items →
       dict_get (py_str k) (safe_json_conversion (IsDict items)) = Some (PList l))
  ∧ (∀ k d, (k, PDict d) ∈ items →
       dict_get (py_str k) (safe_json_conversion (IsDict items)) = Some (PDict d)).
Proof.
  intros Hnd.
  assert (safe_json_conversion (IsDict items)
            = map (λ kv, (py_str kv.1, str_unless_container kv.2)) items) as Heq.
  { unfold safe_json_conversion, convert_or_error, comprehension.
    pose proof (insert_all_fresh str_unless_container
                  (map (λ kv : pyscalar * pyval, (py_str kv.1, kv.2)) items) []) as H.
    rewrite fold_left_over_map, map_map in H. simpl in H. apply H.
    unfold dict_keys. now rewrite map_map. }
  split; [exact Heq|]. rewrite Heq. clear Heq.
  assert (∀ k v, (k, v) ∈ items →
            dict_get (py_str k)
              (map (λ kv, (py_str kv.1, str_unless_container kv.2)) items)
            = Some (str_unless_container v)) as Hget.
  { induction items as [|[k0 v0] items IH]; intros k v Hin; simpl.
    - now apply elem_of_nil in Hin.
    - simpl in Hnd. apply NoDup_cons in Hnd as [Hfresh Hnd].
      apply elem_of_cons in Hin as [[= -> ->]|Hin].
      + now rewrite String.eqb_refl.
      + destruct (String.eqb (py_str k) (py_str k0)) eqn:E; [|now apply IH].
        apply String.eqb_eq in E. destruct Hfresh. rewrite <- E.
        apply list_elem_of_fmap. exists (k, v). split; [reflexivity | exact Hin]. }
  split; intros k x Hin; apply (Hget _ _ Hin).
Qed.

(* ================================================================= *)
(** ** The further properties at concrete inputs *)

(** X1 at a record that has a [__metadata] column: the column keeps its
    place, the separator goes last. *)
Lemma stored_keys_keep_order_witness :
  ∃ stored,
    record_of_row loads_marked "S" "H" "SAT" "B" (Some marked_text) = Return (JDict stored)
    ∧ dict_keys stored = ["__metadata"; "ID"; "__record_separator"].
Proof.
  destruct (stored_keys_keep_order loads_marked "S" "H" "SAT" "B" marked_text
              [("__metadata", JInt 1); ("ID", JInt 7)])
    as (stored & Hrun & Hkeys).
  - vm_compute. discriminate.
  - reflexivity.
  - exists stored. split; [exact Hrun|]. rewrite Hkeys. reflexivity.
Defined.

(** X2 at [mixed_session]: three rows, three entries. *)
Lemma bad_rows_keep_their_place_witness :
  ∃ out,
    extract_missing_records loads_table mixed_session entity_config 10 = Return (3, out)
    ∧ length out = 3%nat
    ∧ out !! 0%nat
        = Some (JDict [ ("error", JStr "Empty JSON result");
                        ("__metadata", JDict (config_metadata entity_config));
                        ("__record_separator", JBool true) ]).
Proof.
  destruct (bad_rows_keep_their_place loads_table mixed_session entity_config 10
              entity_except_query [None; Some "oops"; Some id7_text])
    as (recs & Hex & Hshape).
  - reflexivity.
  - exact entity_query_nonempty.
  - reflexivity.
  - constructor; [left; reflexivity|].
    constructor.
    { right. exists "oops". split; [reflexivity|]. left. eexists. split; reflexivity. }
    constructor; [|constructor].
    right. exists id7_text. split; [reflexivity|]. right. eexists. reflexivity.
  - exists recs. split; [exact Hex|].
    pose proof (Forall2_length _ _ _ Hshape) as Hlen. split; [now rewrite <- Hlen|].
    destruct recs as [|x recs]; [discriminate Hlen|].
    apply Forall2_cons_1 in Hshape as [(_ & Hempty & _) _].
    simpl. f_equal. apply Hempty. reflexivity.
Defined.

(** X3 at [list_row_session]: the record collected first is lost with the
    rest. *)
Lemma non_object_row_discards_sample_witness :
  ∃ e,
    extract_missing_records loads_table list_row_session entity_config 10
      = Return (2, [error_entry "JSON processing error: " e entity_config]).
Proof.
  apply (non_object_row_discards_sample loads_table list_row_session entity_config 10
           entity_except_query [Some id7_text; Some "[]"] 1 "[]" (JList [])).
  - reflexivity.
  - exact entity_query_nonempty.
  - reflexivity.
  - reflexivity.
  - discriminate.
  - reflexivity.
  - reflexivity.
Defined.

(** X6 at [source_count_down_session]: 10 rows are not deleted, and -10 are
    reported deleted. *)
Lemma count_queries_fall_back_witness :
  ∃ row,
    results (main_loop loads_table dumps_indent4 source_count_down_session table_configs)
      !! 0%nat = Some row
    ∧ field result_schema "SOURCE_COUNT" row = Some (VLong 10)
    ∧ field result_schema "DELETED_RECORDS" row = Some (VLong (-10)).
Proof.
  destruct (count_queries_fall_back loads_table dumps_indent4 table_configs
              source_count_down_session 0 entity_config eq_refl)
    as (row & Hrow & Hneg & _).
  exists row. split; [exact Hrow|].
  apply (Hneg sql_error "_IS_DELETED" 10); reflexivity.
Defined.

(** X7 at [order_config], second in the list. *)
Lemma config_without_except_query_witness :
  ∃ row,
    results (main_loop loads_table dumps_indent4 entity_session
               [entity_config; order_config]) !! 1%nat = Some row
    ∧ field result_schema "SOURCE_TO_HUB_LOSS" row = Some (VLong 0)
    ∧ field result_schema "TABLE_NAME" row = Some (VStr "ORDER_TABLE").
Proof.
  destruct (config_without_except_query loads_table dumps_indent4
              [entity_config; order_config] entity_session 1 order_config
              eq_refl eq_refl)
    as (row & sc & dc & Hrow & Hloss & _).
  exists row. split; [exact Hrow|]. split; [exact Hloss|].
  vm_compute in Hrow. injection Hrow as <-. reflexivity.
Defined.

(** X11 at two tables named ENTITY_TABLE: the entry of the second replaces
    the entry of the first, which had one missing record. *)
Lemma lost_records_keep_last_entry_witness :
  table_name_of entity_config = table_name_of shadow_config
  ∧ extract_missing_records loads_table entity_session shadow_config default_limit
      = Return (0, [])
  ∧ ∃ deleted_count,
      dict_get "ENTITY_TABLE"
        (lost_records (main_loop loads_table dumps_indent4 entity_session
                         [entity_config; shadow_config]))
      = Some {| source_to_hub := [];
                missing_count := 0;
                hub_to_satellite := [];
                hub_to_link := [];
                link_to_satellite := [];
                satellite_to_bizview := [];
                deleted := deleted_count |}.
Proof.
  split; [reflexivity|]. split; [reflexivity|].
  destruct (lost_records_keep_last_entry loads_table dumps_indent4
              [entity_config; shadow_config] entity_session 1 shadow_config eq_refl)
    as (row & loss & recs & dc & _ & Hex & _ & Hentry).
  - intros [|[|[|j]]] c Hlt Hj; try lia; discriminate Hj.
  - vm_compute in Hex. injection Hex as <- <-. exists dc. exact Hentry.
Defined.

(** X12 at [sampling_session]: 10 rows collected, 11 entries stored, 10
    reported. *)
Lemma summary_reports_collected_rows_witness :
  ∃ sizes,
    for_each (summary_sample_size
                (main_loop loads_table dumps_indent4 sampling_session table_configs))
             (results (main_loop loads_table dumps_indent4 sampling_session table_configs))
      = Return sizes
    ∧ sizes !! 0%nat = Some 10.
Proof.
  apply (summary_reports_collected_rows loads_table dumps_indent4 table_configs
           sampling_session 0 entity_config entity_except_query
           (replicate 10 (Some id7_text))
           (replicate 10 (JDict [ ("ID", JInt 7);
              ("__metadata",
               JDict (config_metadata entity_config ++ [("record_type", JStr "missing")]));
              ("__record_separator", JBool true) ]))).
  - reflexivity.
  - intros [|j] c Hlt Hj; [lia | discriminate Hj].
  - reflexivity.
  - exact entity_query_nonempty.
  - reflexivity.
  - vm_compute. reflexivity.
Defined.

(** X15 at [priced_items]: the quantity becomes a text, the [Decimal] inside
    the list stays a [Decimal]. *)
Lemma conversion_of_distinct_keys_witness :
  safe_json_conversion (IsDict priced_items)
    = [ ("QTY", PScalar (SStr "3"));
        ("2", PList [PScalar (SObject "1.50")]);
        ("NOTE", PScalar SNone) ].
Proof.
  destruct (conversion_of_distinct_keys priced_items) as [Heq _].
  - vm_compute. repeat constructor; intros H; inversion H; subst;
      repeat match goal with
             | H : _ ∈ _ :: _ |- _ => inversion H; subst; clear H
             | H : _ ∈ [] |- _ => inversion H
             end.
  - rewrite Heq. vm_compute. reflexivity.
Defined.
